(** * Grok Telegram group-chat bot: a shallow embedding of [src/main.py]

    The development follows the module top to bottom: Python strings and the
    builtins the module calls, exceptions, configuration read at import time,
    the rolling per-chat history ([_HISTORY], a [defaultdict] of bounded
    [deque]s), [ensure_identity], [format_user], [format_line], [ask_grok]
    and [handle_group].  Effects (module globals, the history store, calls
    to Telegram and to the completion endpoint) are threaded through a small
    state-and-exception monad. *)

From Stdlib Require Import ZArith NArith List String Ascii Lia Bool.
From stdpp Require Import base option list gmap strings.
Import ListNotations.

Local Open Scope Z_scope.

(** ** Python strings

    A Python [str] is a sequence of Unicode code points.  The module relies
    on [len] counting code points (the ellipsis is one character), so a
    string is a list of code points rather than of bytes. *)

Abbreviation pystr := (list N).

(** An ASCII literal as a Python string. *)
Definition py (s : string) : pystr := N_of_ascii <$> list_ascii_of_string s.
Arguments py s%_string.

Definition NL : N := 10%N.          (* "\n" *)
Definition SP : N := 32%N.          (* " " *)
Definition ELLIPSIS : N := 8230%N.  (* U+2026 *)
Definition EN_DASH : N := 8211%N.   (* U+2013 *)
Definition RSQUO : N := 8217%N.     (* U+2019 *)

Module Str.

(** [s.startswith(p)] *)
Fixpoint starts_with (p s : pystr) : bool :=
  match p, s with
  | [], _ => true
  | a :: p', b :: s' => (a =? b)%N && starts_with p' s'
  | _ :: _, [] => false
  end.

(** [sub in s] *)
Fixpoint contains (sub s : pystr) : bool :=
  starts_with sub s ||
  match s with
  | [] => false
  | _ :: s' => contains sub s'
  end.

(** [s.replace(old, new)] for a non-empty [old]: scan left to right; at an
    occurrence of [old] emit [new] and skip the occurrence ([skip] counts
    the characters of the occurrence still to be passed over). *)
Fixpoint replace_scan (old new s : pystr) (skip : nat) : pystr :=
  match s with
  | [] => []
  | c :: s' =>
      match skip with
      | S k => replace_scan old new s' k
      | O =>
          if starts_with old s
          then new ++ replace_scan old new s' (Nat.pred (length old))
          else c :: replace_scan old new s' O
      end
  end.

(** [s.replace(old, new)]; with an empty [old] Python inserts [new] before
    every character and at the end. *)
Definition replace (old new s : pystr) : pystr :=
  match old with
  | [] => new ++ concat ((fun c => c :: new) <$> s)
  | _ :: _ => replace_scan old new s O
  end.

(** [str.isspace] on one code point, the set [str.strip()] removes. *)
Definition is_space (c : N) : bool :=
  ((9 <=? c) && (c <=? 13) || (28 <=? c) && (c <=? 32) || (c =? 133)
   || (c =? 160) || (c =? 5760) || (8192 <=? c) && (c <=? 8202)
   || (c =? 8232) || (c =? 8233) || (c =? 8239) || (c =? 8287)
   || (c =? 12288))%N.

Fixpoint lstrip (s : pystr) : pystr :=
  match s with
  | [] => []
  | c :: s' => if is_space c then lstrip s' else s
  end.

Definition rstrip (s : pystr) : pystr := reverse (lstrip (reverse s)).

(** [s.strip()] *)
Definition strip (s : pystr) : pystr := rstrip (lstrip s).

(** [sep.join(xs)] *)
Fixpoint join (sep : pystr) (xs : list pystr) : pystr :=
  match xs with
  | [] => []
  | x :: xs' =>
      match xs' with
      | [] => x
      | _ :: _ => x ++ sep ++ join sep xs'
      end
  end.

(** [s[:n]] with Python's treatment of a negative bound. *)
Definition slice_to (n : Z) (s : pystr) : pystr :=
  if 0 <=? n then take (Z.to_nat n) s
  else take (Z.to_nat (Z.of_nat (length s) + n)) s.

(** Truthiness of an optional string: [None] and [""] are falsy. *)
Definition truthy (o : option pystr) : bool :=
  match o with
  | Some (_ :: _) => true
  | _ => false
  end.

(** [a or b] where [a] is an optional string and [b] a string. *)
Definition or_else (a : option pystr) (b : pystr) : pystr :=
  match a with
  | Some (c :: s) => c :: s
  | _ => b
  end.

(** [len(s)] as a Python integer. *)
Definition len (s : pystr) : Z := Z.of_nat (length s).

End Str.

(** ** Telegram objects (the fields the module reads) *)

Record User := {
  user_id : Z;
  first_name : pystr;
  last_name : option pystr;
  username : option pystr
}.

(** A message of a group or supergroup: [from_user] is present there.
    [content_type] is the text an f-string renders for [msg.content_type].
    [reply_to_message] has the same shape. *)
#[warnings="-register-all"]
Inductive Message := mkMessage {
  chat_id : Z;
  from_user : User;
  text : option pystr;
  caption : option pystr;
  content_type : pystr;
  reply_to_message : option Message
}.

(** ** [format_user] and [format_line] *)

(** [" ".join(filter(None, [u.first_name, u.last_name]))], then the
    [(@username)] suffix when the user has a username. *)
Definition format_user (u : User) : pystr :=
  let parts := omap (fun o => if Str.truthy o then o else None)
                    [Some (first_name u); last_name u] in
  let name := Str.join [SP] parts in
  match username u with
  | Some (c :: h) => name ++ py " (@" ++ (c :: h) ++ py ")"
  | _ => name
  end.

(** Line 90: the message text, else the caption, else a placeholder. *)
Definition message_text (msg : Message) : pystr :=
  Str.or_else (text msg)
    (Str.or_else (caption msg)
       (py "[" ++ content_type msg ++ py " message]")).

(** The text of a line before the author label is put in front of it:
    lines 90-93 of [format_line]. *)
Definition snippet (max_snippet_len : Z) (msg : Message) : pystr :=
  let text1 := Str.replace [NL] [SP] (message_text msg) in
  if max_snippet_len <? Str.len text1
  then Str.slice_to (max_snippet_len - 1) text1 ++ [ELLIPSIS]
  else text1.

(** The f-string renders a [None] display name as ["None"]. *)
Definition str_of_optional (o : option pystr) : pystr :=
  match o with
  | Some s => s
  | None => py "None"
  end.

(** The author label, lines 94-96. *)
Definition author_label (bot_display : option pystr) (msg : Message)
    (is_bot_msg : bool) : pystr :=
  if is_bot_msg
  then py "> " ++ str_of_optional bot_display ++ py " (you): "
  else py "> " ++ format_user (from_user msg) ++ py ": ".

(** [format_line(msg, is_bot_msg)], reading the globals [MAX_SNIPPET_LEN]
    and [BOT_DISPLAY]. *)
Definition format_line (max_snippet_len : Z) (bot_display : option pystr)
    (msg : Message) (is_bot_msg : bool) : pystr :=
  author_label bot_display msg is_bot_msg ++ snippet max_snippet_len msg.

(** ** Exceptions and results *)

(** The [httpx] exception classes below [httpx.HTTPError]. *)
Inductive httpx_error :=
  | ConnectTimeout | ReadTimeout | WriteTimeout | PoolTimeout
  | ConnectError | ReadError | WriteError | CloseError
  | LocalProtocolError | RemoteProtocolError | ProxyError
  | UnsupportedProtocol | DecodingError | TooManyRedirects
  | HTTPStatusError.

Inductive exn_class :=
  | TypeError | ValueError | KeyError | IndexError | AttributeError
  | RuntimeError
  | Httpx (k : httpx_error)
  | OtherError (name : pystr).

(** An exception: its class and [str(exc)]. *)
Inductive exn := Exn (c : exn_class) (msg : pystr).

Definition exn_cls (e : exn) : exn_class := let 'Exn c _ := e in c.
Definition exn_str (e : exn) : pystr := let 'Exn _ m := e in m.

(** [isinstance(exc, httpx.HTTPError)] *)
Definition is_HTTPError (e : exn) : bool :=
  match exn_cls e with
  | Httpx _ => true
  | _ => false
  end.

(** [isinstance(exc, ValueError)] *)
Definition is_ValueError (e : exn) : bool :=
  match exn_cls e with
  | ValueError => true
  | _ => false
  end.

(** [httpx.TransportError]: connection failures, timeouts, protocol and
    proxy errors. *)
Definition is_TransportError (k : httpx_error) : bool :=
  match k with
  | DecodingError | TooManyRedirects | HTTPStatusError => false
  | _ => true
  end.

Inductive result (A : Type) :=
  | Ok (a : A)
  | Raise (e : exn).
Arguments Ok {A} a.
Arguments Raise {A} e.

#[global] Instance result_ret : MRet result := fun A a => Ok a.
#[global] Instance result_bind : MBind result := fun A B f r =>
  match r with
  | Ok a => f a
  | Raise e => Raise e
  end.
#[global] Instance result_fmap : FMap result := fun A B f r =>
  match r with
  | Ok a => Ok (f a)
  | Raise e => Raise e
  end.

(** ** The host runtime

    Builtins and library calls whose tables are not part of the module:
    Unicode lower-casing, [int] on a string, and the token check the
    [aiogram.Bot] constructor performs. *)
Class Runtime := {
  str_lower : pystr → pystr;
  str_lower_nil : str_lower [] = [];
  int_of_str : pystr → result Z;
  validate_token : pystr → result unit
}.

(** ** Configuration read at import time (lines 27-46) *)

Record Config := {
  BOT_TOKEN : pystr;
  XAI_API_KEY : option pystr;
  MAX_SNIPPET_LEN : Z;
  MESSAGE_HISTORY_LIMIT : Z
}.

(** [os.getenv(name)] after [load_dotenv()]. *)
Definition getenv (env : gmap string pystr) (name : string) : option pystr :=
  env !! name.

(** [int(x)] where [x] is what [os.getenv] returned: [int(None)] is a
    [TypeError]. *)
Definition py_int `{!Runtime} (x : option pystr) : result Z :=
  match x with
  | None =>
      Raise (Exn TypeError
        (py "int() argument must be a string, a bytes-like object or a real number, not 'NoneType'"))
  | Some s => int_of_str s
  end.

(** Execution of the module body up to line 46. *)
Definition startup `{!Runtime} (env : gmap string pystr) : result Config :=
  let bot_token := getenv env "BOT_TOKEN" in
  let xai_api_key := getenv env "XAI_API_KEY" in
  if negb (Str.truthy bot_token)
  then Raise (Exn RuntimeError (py "BOT_TOKEN missing - set it in .env"))
  else if negb (Str.truthy xai_api_key)
  then Raise (Exn RuntimeError (py "XAI_API_KEY missing - set it in .env"))
  else
    validate_token (default [] bot_token) ≫= fun _ =>
    py_int (getenv env "MAX_SNIPPET_LEN") ≫= fun max_snippet_len =>
    py_int (getenv env "MESSAGE_LIMIT") ≫= fun message_history_limit =>
    Ok {| BOT_TOKEN := default [] bot_token;
          XAI_API_KEY := xai_api_key;
          MAX_SNIPPET_LEN := max_snippet_len;
          MESSAGE_HISTORY_LIMIT := message_history_limit |}.

(** ** The rolling history (lines 48-49) *)

(** [collections.deque] with a [maxlen]. *)
Record deque (A : Type) := Deque {
  maxlen : nat;
  items : list A
}.
Arguments Deque {A} maxlen items.
Arguments maxlen {A} d.
Arguments items {A} d.

(** [deque(maxlen=n)]: a negative [n] is a [ValueError]. *)
Definition deque_new {A} (n : Z) : result (deque A) :=
  if n <? 0
  then Raise (Exn ValueError (py "maxlen must be non-negative"))
  else Ok (Deque (Z.to_nat n) []).

(** [d.append(x)]: add on the right, then drop the leftmost element when
    the bound is exceeded. *)
Definition deque_append {A} (x : A) (d : deque A) : deque A :=
  let items' := items d ++ [x] in
  Deque (maxlen d)
        (if (maxlen d <? length items')%nat then drop 1 items' else items').

(** A history entry: [(is_bot_msg, line)]. *)
Abbreviation entry := (bool * pystr)%type.

(** [_HISTORY[chat_id]]: a [defaultdict] lookup; a missing key runs the
    factory [deque(maxlen=MESSAGE_HISTORY_LIMIT)] and stores its result. *)
Definition history_get (limit : Z) (chat : Z) (h : gmap Z (deque entry))
    : result (deque entry * gmap Z (deque entry)) :=
  match h !! chat with
  | Some d => Ok (d, h)
  | None => deque_new limit ≫= fun d => Ok (d, <[chat := d]> h)
  end.

(** [_HISTORY[chat_id].append(e)]: the deque is mutated in place. *)
Definition history_append (limit : Z) (chat : Z) (e : entry)
    (h : gmap Z (deque entry)) : result (gmap Z (deque entry)) :=
  history_get limit chat h ≫= fun '(d, h') =>
  Ok (<[chat := deque_append e d]> h').

(** [list(_HISTORY[chat_id])] when the key is present, the empty list
    otherwise. *)
Definition buffer (chat : Z) (h : gmap Z (deque entry)) : list entry :=
  match h !! chat with
  | Some d => items d
  | None => []
  end.

(** A sequence of appends [(chat_id, entry)] run in order on a store. *)
Definition run_appends (limit : Z) (ops : list (Z * entry))
    (h : gmap Z (deque entry)) : result (gmap Z (deque entry)) :=
  foldl (fun r op => r ≫= history_append limit op.1 op.2) (Ok h) ops.

(** The entries a sequence of appends adds to one chat, in order. *)
Definition appended_to (chat : Z) (ops : list (Z * entry)) : list entry :=
  snd <$> filter (fun op => op.1 = chat) ops.

(** The [k] most recent elements of a list that grows on the right. *)
Definition most_recent {A} (k : nat) (l : list A) : list A :=
  drop (length l - k) l.

(** ** JSON values and subscripting

    What [r.json()] returns: [None], [bool], [int], [float], [str], [list]
    or a [dict] with string keys. *)
#[warnings="-register-all"]
Inductive json :=
  | JNull
  | JBool (b : bool)
  | JInt (z : Z)
  | JFloat (repr : pystr)
  | JStr (s : pystr)
  | JList (l : list json)
  | JDict (d : list (pystr * json)).

Definition dict_get (k : pystr) (d : list (pystr * json)) : option json :=
  snd <$> find (fun kv => bool_decide (fst kv = k)) d.

(** The name Python prints for the type of a value. *)
Definition type_name (v : json) : pystr :=
  match v with
  | JNull => py "NoneType"
  | JBool _ => py "bool"
  | JInt _ => py "int"
  | JFloat _ => py "float"
  | JStr _ => py "str"
  | JList _ => py "list"
  | JDict _ => py "dict"
  end.

Definition not_subscriptable {A} (v : json) : result A :=
  Raise (Exn TypeError
           (py "'" ++ type_name v ++ py "' object is not subscriptable")).

(** [v[k]] with a string key. *)
Definition getitem_str (v : json) (k : pystr) : result json :=
  match v with
  | JDict d =>
      match dict_get k d with
      | Some x => Ok x
      | None => Raise (Exn KeyError (py "'" ++ k ++ py "'"))
      end
  | JList _ =>
      Raise (Exn TypeError (py "list indices must be integers or slices, not str"))
  | JStr _ =>
      Raise (Exn TypeError (py "string indices must be integers, not 'str'"))
  | _ => not_subscriptable v
  end.

(** Position of index [i] in a sequence of length [n], Python style. *)
Definition seq_index (i : Z) (n : nat) : option nat :=
  let j := if i <? 0 then i + Z.of_nat n else i in
  if (0 <=? j) && (j <? Z.of_nat n) then Some (Z.to_nat j) else None.

(** [v[i]] with an integer index; a [dict] decoded from JSON has no
    integer key. *)
Definition getitem_int (v : json) (i : Z) : result json :=
  match v with
  | JList l =>
      match seq_index i (length l) ≫= fun j => l !! j with
      | Some x => Ok x
      | None => Raise (Exn IndexError (py "list index out of range"))
      end
  | JStr s =>
      match seq_index i (length s) ≫= fun j => s !! j with
      | Some c => Ok (JStr [c])
      | None => Raise (Exn IndexError (py "string index out of range"))
      end
  | JDict _ => Raise (Exn KeyError (py "0"))
  | _ => not_subscriptable v
  end.

(** ** The completion endpoint and Telegram, as seen by the module *)

Record ChatMessage := { role : pystr; content : pystr }.
Record Payload := { model : pystr; messages : list ChatMessage }.
Record Request := { url : pystr; authorization : pystr; json_payload : Payload }.

(** An [httpx.Response]: its status, the message [raise_for_status] puts in
    its [HTTPStatusError], and what [r.json()] gives ([None] when the body is
    not JSON, a [ValueError]). *)
Record Response := {
  status_code : Z;
  status_message : pystr;
  body_json : option json
}.

(** [r.raise_for_status()]: nothing on a 2xx status. *)
Definition raise_for_status (r : Response) : result unit :=
  if (200 <=? status_code r) && (status_code r <=? 299)
  then Ok tt
  else Raise (Exn (Httpx HTTPStatusError) (status_message r)).

(** [r.json()] *)
Definition response_json (r : Response) : result json :=
  match body_json r with
  | Some v => Ok v
  | None => Raise (Exn ValueError (py "Expecting value"))
  end.

(** Outcomes of the calls that leave the process. *)
Record World := {
  get_me : result User;
  http_post : Request → result Response;
  send_chat_action : Z → pystr → result unit;
  send_reply : Message → pystr → result Message;
  send_answer : Message → json → result Message
}.

(** The calls that leave the process, in the order they are made. *)
Inductive Event :=
  | EGetMe
  | EPost (req : Request)
  | EChatAction (chat : Z) (action : pystr)
  | EReply (to : Message) (body : pystr)
  | EAnswer (to : Message) (body : json).

Definition is_post (ev : Event) : bool :=
  match ev with EPost _ => true | _ => false end.

(** ** Module state and the monad of handlers *)

Record State := {
  BOT_USERNAME : option pystr;
  BOT_DISPLAY : option pystr;
  BOT_ID : option Z;
  HISTORY : gmap Z (deque entry);
  LOG : list Event
}.

Definition initial_state : State :=
  {| BOT_USERNAME := None; BOT_DISPLAY := None; BOT_ID := None;
     HISTORY := ∅; LOG := [] |}.

Definition M (A : Type) : Type := State → State * result A.

#[global] Instance M_ret : MRet M := fun A a st => (st, Ok a).
#[global] Instance M_bind : MBind M := fun A B f m st =>
  match m st with
  | (st', Ok a) => f a st'
  | (st', Raise e) => (st', Raise e)
  end.

Definition raise {A} (e : exn) : M A := fun st => (st, Raise e).
Definition lift {A} (r : result A) : M A := fun st => (st, r).
Definition get_state : M State := fun st => (st, Ok st).

#[global] Instance M_fmap : FMap M := fun A B f m => a ← m; mret (f a).

(** [try: body / except <matching> as exc: handler exc]; an exception the
    clause does not match propagates. *)
Definition try_except {A} (body : M A) (matching : exn → bool)
    (handler : exn → M A) : M A := fun st =>
  match body st with
  | (st', Raise e) => if matching e then handler e st' else (st', Raise e)
  | ok => ok
  end.

Definition add_log (ev : Event) : State → State := fun st =>
  {| BOT_USERNAME := BOT_USERNAME st; BOT_DISPLAY := BOT_DISPLAY st;
     BOT_ID := BOT_ID st; HISTORY := HISTORY st; LOG := LOG st ++ [ev] |}.

Definition log (ev : Event) : M unit := fun st => (add_log ev st, Ok tt).

Definition set_identity (u d : pystr) (i : Z) : M unit := fun st =>
  ({| BOT_USERNAME := Some u; BOT_DISPLAY := Some d; BOT_ID := Some i;
      HISTORY := HISTORY st; LOG := LOG st |}, Ok tt).

Definition set_history (h : gmap Z (deque entry)) : State → State := fun st =>
  {| BOT_USERNAME := BOT_USERNAME st; BOT_DISPLAY := BOT_DISPLAY st;
     BOT_ID := BOT_ID st; HISTORY := h; LOG := LOG st |}.

(** A pure operation on [_HISTORY] run on the state; a raised exception
    leaves the dictionary as it was. *)
Definition on_history {A} (f : gmap Z (deque entry) → result (A * gmap Z (deque entry)))
    : M A := fun st =>
  match f (HISTORY st) with
  | Ok (a, h) => (set_history h st, Ok a)
  | Raise e => (st, Raise e)
  end.

(** ** The program *)

Section Program.

Context `{!Runtime} (cfg : Config) (w : World).

(** [ensure_identity] (lines 52-61). *)
Definition ensure_identity : M unit :=
  st ← get_state;
  match BOT_USERNAME st with
  | Some _ => mret tt
  | None =>
      log EGetMe ;;
      me ← lift (get_me w);
      name ← match username me with
             | Some u => mret u
             | None =>
                 raise (Exn AttributeError
                   (py "'NoneType' object has no attribute 'lower'"))
             end;
      set_identity (py "@" ++ str_lower name)
                   (Str.or_else (Some (first_name me)) (py "Bot"))
                   (user_id me)
  end.

(** [format_line] with the globals it reads taken from the state. *)
Definition format_line_m (msg : Message) (is_bot_msg : bool) : M pystr :=
  st ← get_state;
  mret (format_line (MAX_SNIPPET_LEN cfg) (BOT_DISPLAY st) msg is_bot_msg).

(** Lines 132-137: the context blocks, built by successive [append]s. *)
Definition context_blocks (history_lines : list pystr)
    (replied_line : option pystr) (prompt : pystr) : list pystr :=
  let blocks := [] in
  let blocks :=
    match history_lines with
    | _ :: _ =>
        blocks ++ [py "Chat history:" ++ [NL] ++ Str.join [NL] history_lines]
    | [] => blocks
    end in
  let blocks :=
    match replied_line with
    | Some (c :: l) =>
        if bool_decide ((c :: l) ∈ history_lines) then blocks
        else blocks ++ [py "Replied message:" ++ [NL] ++ (c :: l)]
    | _ => blocks
    end in
  blocks ++ [py "User prompt:" ++ [NL] ++ prompt].

Definition SYSTEM_INSTRUCTION : pystr :=
  py "You are Grok integrated into a Telegram group chat. "
  ++ py "Respond concisely and helpfully using the context.".

(** Lines 139-151. *)
Definition build_payload (blocks : list pystr) : Payload :=
  {| model := py "grok-4";
     messages :=
       [ {| role := py "system"; content := SYSTEM_INSTRUCTION |};
         {| role := py "user"; content := Str.join [NL; NL] blocks |} ] |}.

Definition COMPLETIONS_URL : pystr := py "https://api.x.ai/v1/chat/completions".

Definition MISSING_KEY : pystr := py "<XAI_API_KEY missing>".

Definition MALFORMED : pystr :=
  py "<Grok response malformed " ++ [EN_DASH] ++ py " expected JSON>".

Definition api_error (e : exn) : pystr :=
  py "<Grok API error " ++ [EN_DASH] ++ py " " ++ exn_str e ++ py ">".

(** The request of lines 155-159 for the context of lines 130-137. *)
Definition grok_request (history_lines : list pystr)
    (replied_line : option pystr) (prompt : pystr) : Request :=
  {| url := COMPLETIONS_URL;
     authorization := py "Bearer " ++ str_of_optional (XAI_API_KEY cfg);
     json_payload :=
       build_payload (context_blocks history_lines replied_line prompt) |}.

(** Line 167: [r.json()["choices"][0]["message"]["content"]]. *)
Definition extract_content (r : Response) : result json :=
  v ← response_json r;
  choices ← getitem_str v (py "choices");
  first ← getitem_int choices 0;
  message ← getitem_str first (py "message");
  getitem_str message (py "content").

(** [ask_grok] (lines 99-169).  The value returned is whatever
    [choices[0].message.content] holds, or one of the marker strings. *)
Definition ask_grok (chat : Z) (prompt : pystr)
    (replied_line : option pystr) : M json :=
  if negb (Str.truthy (XAI_API_KEY cfg)) then mret (JStr MISSING_KEY)
  else
    d ← on_history (history_get (MESSAGE_HISTORY_LIMIT cfg) chat);
    let history_lines := snd <$> items d in
    let request := grok_request history_lines replied_line prompt in
    try_except
      (log (EPost request) ;;
       r ← lift (http_post w request);
       lift (raise_for_status r) ;;
       (* the inner [try] covers [data = r.json()] only; [None] stands
          for the [return] of its [except ValueError] clause *)
       data ← try_except (Some <$> lift (response_json r))
                         is_ValueError
                         (fun _ => mret None);
       match data with
       | None => mret (JStr MALFORMED)
       | Some _ => lift (extract_content r)
       end)
      is_HTTPError
      (fun exc => mret (JStr (api_error exc))).

End Program.

Section Handler.

Context `{!Runtime} (cfg : Config) (w : World).

Definition usage_hint (bot_username : pystr) : pystr :=
  py "Add a prompt after mentioning me, e.g. " ++ bot_username
  ++ py " what" ++ [RSQUO] ++ py "s up?".

(** [x == BOT_ID] for an integer [x] *)
Definition eq_bot_id (x : Z) (bot_id : option Z) : bool :=
  bool_decide (bot_id = Some x).

(** Lines 197-201: is the bot addressed, and with which prompt. *)
Inductive detection :=
  | NotAddressed
  | EmptyPrompt
  | Prompt (prompt : pystr).

Definition detect (bot_username : pystr) (msg_text : option pystr)
    : detection :=
  let t := Str.or_else msg_text [] in
  if negb (Str.contains bot_username (str_lower t)) then NotAddressed
  else
    match Str.strip (Str.replace bot_username [] t) with
    | [] => EmptyPrompt
    | c :: p => Prompt (c :: p)
    end.

(** [_HISTORY[chat_id].append((is_bot_msg, format_line(msg, is_bot_msg)))] *)
Definition record_line (chat : Z) (msg : Message) (is_bot_msg : bool)
    : M unit :=
  line ← format_line_m cfg msg is_bot_msg;
  on_history (fun h =>
    h' ← history_append (MESSAGE_HISTORY_LIMIT cfg) chat (is_bot_msg, line) h;
    Ok (tt, h')).

(** Lines 205-216: answer a query. *)
Definition answer_query (msg : Message) (bot_id : option Z)
    (prompt : pystr) : M unit :=
  let chat := chat_id msg in
  reply ← match reply_to_message msg with
          | Some replied =>
              Some <$> format_line_m cfg replied
                (eq_bot_id (user_id (from_user replied)) bot_id)
          | None => mret None
          end;
  log (EChatAction chat (py "typing")) ;;
  lift (send_chat_action w chat (py "typing")) ;;
  answer ← ask_grok cfg w chat prompt reply;
  log (EAnswer msg answer) ;;
  sent ← lift (send_answer w msg answer);
  record_line chat sent true.

(** [handle_group] (lines 173-216). *)
Definition handle_group (msg : Message) : M unit :=
  ensure_identity w ;;
  let chat := chat_id msg in
  st ← get_state;
  let is_bot_msg := eq_bot_id (user_id (from_user msg)) (BOT_ID st) in
  record_line chat msg is_bot_msg ;;
  bot_username ← match BOT_USERNAME st with
                 | Some u => mret u
                 | None =>
                     raise (Exn TypeError
                       (py "'in <string>' requires string as left operand, not NoneType"))
                 end;
  match detect bot_username (text msg) with
  | NotAddressed => mret tt
  | EmptyPrompt =>
      log (EReply msg (usage_hint bot_username)) ;;
      lift (send_reply w msg (usage_hint bot_username)) ;;
      mret tt
  | Prompt prompt => answer_query msg (BOT_ID st) prompt
  end.

(** The dispatcher runs the handler on each delivered group message; an
    exception raised by a handler run is logged and the next message is
    taken. *)
Definition dispatch (msgs : list Message) : M unit :=
  foldr (fun msg rest =>
           try_except (handle_group msg) (fun _ => true) (fun _ => mret tt) ;;
           rest)
        (mret tt) msgs.

(** [main]: resolve the identity, then poll. *)
Definition main (msgs : list Message) : M unit :=
  ensure_identity w ;;
  dispatch msgs.

End Handler.

(** ** The suspension of line 211

    Between the append of line 195 and the read of line 130 the handler
    awaits the typing call, and the handlers of other updates may run
    there.  [others] is what they do to the module state meanwhile.  The
    awaits before line 195 act on the state the run starts from, and those
    after line 130 come once the request is built. *)

Section Interleaving.

Context `{!Runtime} (cfg : Config) (w : World) (others : State → State).

(** An awaited call: its outcome is delivered once the other tasks have
    run. *)
Definition await {A} (r : result A) : M A := fun st => (others st, r).

(** Lines 205-216 with the suspension of line 211. *)
Definition answer_query_interleaved (msg : Message) (bot_id : option Z)
    (prompt : pystr) : M unit :=
  let chat := chat_id msg in
  reply ← match reply_to_message msg with
          | Some replied =>
              Some <$> format_line_m cfg replied
                (eq_bot_id (user_id (from_user replied)) bot_id)
          | None => mret None
          end;
  log (EChatAction chat (py "typing")) ;;
  await (send_chat_action w chat (py "typing")) ;;
  answer ← ask_grok cfg w chat prompt reply;
  log (EAnswer msg answer) ;;
  sent ← lift (send_answer w msg answer);
  record_line cfg chat sent true.

(** [handle_group] with the suspension of line 211. *)
Definition handle_group_interleaved (msg : Message) : M unit :=
  ensure_identity w ;;
  let chat := chat_id msg in
  st ← get_state;
  let is_bot_msg := eq_bot_id (user_id (from_user msg)) (BOT_ID st) in
  record_line cfg chat msg is_bot_msg ;;
  bot_username ← match BOT_USERNAME st with
                 | Some u => mret u
                 | None =>
                     raise (Exn TypeError
                       (py "'in <string>' requires string as left operand, not NoneType"))
                 end;
  match detect bot_username (text msg) with
  | NotAddressed => mret tt
  | EmptyPrompt =>
      log (EReply msg (usage_hint bot_username)) ;;
      lift (send_reply w msg (usage_hint bot_username)) ;;
      mret tt
  | Prompt prompt => answer_query_interleaved msg (BOT_ID st) prompt
  end.

End Interleaving.

(** ** The context assembler as the specification words it

    A "Chat history" block when the history is not empty, a "Replied message"
    block when a reply line is given and is not one of the history lines,
    and always a "User prompt" block, in this order. *)
Definition spec_blocks (history : list pystr) (reply : option pystr)
    (prompt : pystr) : list pystr :=
  (if decide (history = []) then []
   else [py "Chat history:" ++ [NL] ++ Str.join [NL] history])
  ++ match reply with
     | Some r =>
         if decide (r ∈ history) then []
         else [py "Replied message:" ++ [NL] ++ r]
     | None => []
     end
  ++ [py "User prompt:" ++ [NL] ++ prompt].

(** A completion call that fails at the transport or status level, with the
    exception [httpx] raises for it. *)
Inductive transport_failure (w : World) (req : Request) : exn → Prop :=
  | request_failed k detail :
      http_post w req = Raise (Exn (Httpx k) detail) →
      is_TransportError k = true →
      transport_failure w req (Exn (Httpx k) detail)
  | status_failed r :
      http_post w req = Ok r →
      ¬ (200 ≤ status_code r ≤ 299) →
      transport_failure w req (Exn (Httpx HTTPStatusError) (status_message r)).

(** ** The mention detector as the specification words it *)

(** [removed handle t r]: [r] is [t] with every occurrence of the literal
    [handle] taken out, occurrences being found from left to right (the
    occurrence after [pre] is the leftmost one when [handle] does not occur
    in [pre] followed by all but the last character of [handle]). *)
Inductive removed (handle : pystr) : pystr → pystr → Prop :=
  | removed_none t :
      Str.contains handle t = false → removed handle t t
  | removed_first pre rest r :
      Str.contains handle (pre ++ take (Nat.pred (length handle)) handle) = false →
      removed handle rest r →
      removed handle (pre ++ handle ++ rest) (pre ++ r).

(** [trimmed r p]: [p] is [r] without its leading and trailing whitespace. *)
Definition trimmed (r p : pystr) : Prop :=
  ∃ lead trail,
    r = lead ++ p ++ trail
    ∧ Forall (fun c => Str.is_space c = true) lead
    ∧ Forall (fun c => Str.is_space c = true) trail
    ∧ (∀ c, head p = Some c → Str.is_space c = false)
    ∧ (∀ c, last p = Some c → Str.is_space c = false).

(** ** Observing a handler run *)

(** The store after one successful [_HISTORY[chat].append(e)]. *)
Definition push (limit : Z) (chat : Z) (e : entry)
    (h : gmap Z (deque entry)) : gmap Z (deque entry) :=
  <[chat := deque_append e (default (Deque (Z.to_nat limit) []) (h !! chat))]> h.

(** The store after [_HISTORY[chat_id]] has been evaluated. *)
Definition touch (cfg : Config) (chat : Z) (h : gmap Z (deque entry))
    : gmap Z (deque entry) :=
  match h !! chat with
  | Some _ => h
  | None => <[chat := Deque (Z.to_nat (MESSAGE_HISTORY_LIMIT cfg)) []]> h
  end.

(** The history lines [ask_grok] reads in a state. *)
Definition history_lines (chat : Z) (st : State) : list pystr :=
  snd <$> buffer chat (HISTORY st).

(** What [ask_grok] returns or raises once the request has been posted. *)
Definition completion_outcome (w : World) (req : Request) : result json :=
  match http_post w req with
  | Raise e => if is_HTTPError e then Ok (JStr (api_error e)) else Raise e
  | Ok r =>
      match raise_for_status r with
      | Raise e => Ok (JStr (api_error e))
      | Ok _ =>
          match body_json r with
          | None => Ok (JStr MALFORMED)
          | Some _ => extract_content r
          end
      end
  end.

(** What a store built by appends from the empty store holds. *)
Definition tracks (n : nat) (ops : list (Z * entry))
    (h : gmap Z (deque entry)) : Prop :=
  ∀ chat,
    match h !! chat with
    | Some d => maxlen d = n ∧ items d = most_recent n (appended_to chat ops)
    | None => appended_to chat ops = []
    end.

(** A computation that leaves a resolved [BOT_USERNAME] as it is. *)
Definition keeps {A} (m : M A) : Prop :=
  ∀ st u, BOT_USERNAME st = Some u → BOT_USERNAME (m st).1 = Some u.

(** A computation that leaves the lines held for chat [c] as they are. *)
Definition frames (c : Z) {A} (m : M A) : Prop :=
  ∀ st, buffer c (HISTORY (m st).1) = buffer c (HISTORY st).

(** The calls made between two states of one run. *)
Definition new_events (before after : State) : list Event :=
  drop (length (LOG before)) (LOG after).

(** The run answered the query: it called [msg.answer] and Telegram
    returned the message [sent]. *)
Definition answered (w : World) (msg : Message) (evs : list Event)
    (sent : Message) : Prop :=
  ∃ a, EAnswer msg a ∈ evs ∧ send_answer w msg a = Ok sent.

(** ** A concrete runtime and world, for evaluating the program *)

Module Sample.

Definition lower_char (c : N) : N :=
  if ((65 <=? c) && (c <=? 90))%N then (c + 32)%N else c.

Definition lower (s : pystr) : pystr := lower_char <$> s.

Definition invalid_literal {A} : result A :=
  Raise (Exn ValueError (py "invalid literal for int() with base 10")).

(** Decimal digits, a single underscore allowed between two digits;
    [after_digit] tells whether the previous character was a digit. *)
Fixpoint digits (acc : Z) (after_digit : bool) (s : pystr) : result Z :=
  match s with
  | [] => if after_digit then Ok acc else invalid_literal
  | c :: s' =>
      if ((48 <=? c) && (c <=? 57))%N
      then digits (10 * acc + Z.of_N (c - 48)) true s'
      else if (c =? 95)%N && after_digit then digits acc false s'
      else invalid_literal
  end.

(** [int(s)] on ASCII input: surrounding whitespace, an optional sign, then
    digits. *)
Definition parse_int (s : pystr) : result Z :=
  match Str.strip s with
  | [] => invalid_literal
  | c :: s' =>
      if (c =? 45)%N then Z.opp <$> digits 0 false s'
      else if (c =? 43)%N then digits 0 false s'
      else digits 0 false (c :: s')
  end.

(** Lower-casing on the ASCII range, [int] on ASCII input, every token
    accepted. *)
#[export] Instance runtime : Runtime := {|
  str_lower := lower;
  str_lower_nil := eq_refl;
  int_of_str := parse_int;
  validate_token := fun _ => Ok tt
|}.

Definition cfg : Config :=
  {| BOT_TOKEN := py "1:token"; XAI_API_KEY := Some (py "key");
     MAX_SNIPPET_LEN := 160; MESSAGE_HISTORY_LIMIT := 30 |}.

Definition alice : User :=
  {| user_id := 7; first_name := py "Alice"; last_name := None;
     username := Some (py "alice") |}.

Definition bot_user : User :=
  {| user_id := 1; first_name := py "Grok"; last_name := None;
     username := Some (py "Bot") |}.

Definition text_message (u : User) (t : pystr) : Message :=
  {| chat_id := 100; from_user := u; text := Some t; caption := None;
     content_type := py "text"; reply_to_message := None |}.

Definition body_of (j : json) : pystr :=
  match j with JStr s => s | _ => [] end.

(** A world in which the endpoint answers [response] and Telegram echoes
    what is sent. *)
Definition world (response : result Response) : World :=
  {| get_me := Ok bot_user;
     http_post := fun _ => response;
     send_chat_action := fun _ _ => Ok tt;
     send_reply := fun _ body => Ok (text_message bot_user body);
     send_answer := fun _ body => Ok (text_message bot_user (body_of body)) |}.

Definition completion (answer : pystr) : json :=
  JDict [(py "choices",
          JList [JDict [(py "message",
                         JDict [(py "role", JStr (py "assistant"));
                                (py "content", JStr answer)])]])].

Definition ok_response (v : json) : Response :=
  {| status_code := 200; status_message := []; body_json := Some v |}.

Definition ready : State :=
  {| BOT_USERNAME := Some (py "@bot"); BOT_DISPLAY := Some (py "Grok");
     BOT_ID := Some 1; HISTORY := ∅; LOG := [] |}.

End Sample.

(** * Properties *)

(** ** Strings *)

Section StrFacts.

Implicit Types (p s old new sub : pystr).

Lemma starts_with_prefix p s :
  Str.starts_with p s = true ↔ ∃ k, s = p ++ k.
Proof.
  revert s. induction p as [|a p IH]; intros [|b s]; simpl.
  - split; [eauto | done].
  - split; [eauto | done].
  - split; [done | intros [k Hk]; discriminate].
  - rewrite andb_true_iff, N.eqb_eq, IH. split.
    + intros [-> [k ->]]. eauto.
    + intros [k Hk]. injection Hk as -> ->. eauto.
Qed.

Lemma starts_with_take p s :
  Str.starts_with p s = true ↔ take (length p) s = p.
Proof.
  rewrite starts_with_prefix. split.
  - intros [k ->]. by rewrite take_app_length.
  - intros H. exists (drop (length p) s).
    rewrite <- H at 1. by rewrite take_drop.
Qed.

(** [sub in s] holds exactly when [s] splits around a copy of [sub]. *)
Lemma contains_occurrence sub s :
  Str.contains sub s = true ↔ ∃ pre post, s = pre ++ sub ++ post.
Proof.
  induction s as [|c s IH]; simpl.
  - rewrite orb_false_r, starts_with_prefix. split.
    + intros [k Hk]. exists [], k. done.
    + intros (pre & post & H). symmetry in H.
      apply app_eq_nil in H as [-> H]. apply app_eq_nil in H as [-> ->].
      by exists [].
  - rewrite orb_true_iff, starts_with_prefix, IH. split.
    + intros [[k Hk] | (pre & post & ->)].
      * exists [], k. done.
      * exists (c :: pre), post. done.
    + intros ([|a pre] & post & H).
      * left. exists post. done.
      * right. injection H as -> ->. eauto.
Qed.

Lemma contains_length sub s :
  Str.contains sub s = true → (length sub ≤ length s)%nat.
Proof.
  rewrite contains_occurrence. intros (pre & post & ->).
  rewrite !length_app. lia.
Qed.

(** Replacing a one-character string is a character-wise substitution. *)
Lemma replace_char (a b : N) s :
  Str.replace [a] [b] s = (fun c => if (a =? c)%N then b else c) <$> s.
Proof.
  unfold Str.replace. induction s as [|c s IH]; simpl; [done|].
  rewrite andb_true_r. destruct (a =? c)%N; simpl; by rewrite IH.
Qed.

Lemma replace_newline_length s :
  length (Str.replace [NL] [SP] s) = length s.
Proof. by rewrite replace_char, length_fmap. Qed.

Lemma replace_newline_free s : NL ∉ Str.replace [NL] [SP] s.
Proof.
  rewrite replace_char. intros H.
  apply list_elem_of_fmap in H as (c & Hc & _).
  destruct (N.eqb_spec NL c) as [Heq|Hne]; [discriminate | congruence].
Qed.

End StrFacts.

(** ** Snippet formatter *)

Section FormatLine.

Lemma snippet_length max_len msg :
  1 ≤ max_len → Str.len (snippet max_len msg) ≤ max_len.
Proof.
  intros Hpos. unfold snippet, Str.len, Str.slice_to.
  destruct (Z.ltb_spec max_len
              (Z.of_nat (length (Str.replace [NL] [SP] (message_text msg)))))
    as [Hlt|Hge]; [|lia].
  destruct (Z.leb_spec 0 (max_len - 1)); [|lia].
  rewrite length_app, length_take. simpl. lia.
Qed.

Lemma snippet_truncated max_len msg :
  1 ≤ max_len → max_len < Str.len (message_text msg) →
  Str.len (snippet max_len msg) = max_len
  ∧ last (snippet max_len msg) = Some ELLIPSIS.
Proof.
  intros Hpos Hlong. unfold snippet, Str.len, Str.slice_to in *.
  rewrite replace_newline_length.
  destruct (Z.ltb_spec max_len (Z.of_nat (length (message_text msg))));
    [|lia].
  destruct (Z.leb_spec 0 (max_len - 1)); [|lia].
  rewrite length_app, length_take, replace_newline_length, last_snoc.
  simpl. split; [lia | done].
Qed.

Lemma snippet_newline_free max_len msg : NL ∉ snippet max_len msg.
Proof.
  unfold snippet.
  pose proof (replace_newline_free (message_text msg)) as Hfree.
  case_match; [|done].
  rewrite elem_of_app, list_elem_of_singleton. intros [Hin | Heq].
  - unfold Str.slice_to in Hin.
    case_match; apply subseteq_take in Hin; contradiction.
  - discriminate.
Qed.

End FormatLine.

(** C4 (as amended).  With a maximum length of at least one, a rendered
    line is the author label followed by the snippet; the snippet, not the
    whole line, is at most [max_len] characters long and free of newlines;
    when the message text is longer than [max_len] the snippet is exactly
    [max_len] characters long and the line ends with the ellipsis. *)
Theorem format_line_snippet_bounded (max_len : Z) (display : option pystr)
    (msg : Message) (is_bot : bool) :
  1 ≤ max_len →
  let line := format_line max_len display msg is_bot in
  let body := snippet max_len msg in
  line = author_label display msg is_bot ++ body
  ∧ Str.len line = Str.len (author_label display msg is_bot) + Str.len body
  ∧ Str.len body ≤ max_len
  ∧ (NL ∉ body)
  ∧ (max_len < Str.len (message_text msg) →
     Str.len body = max_len ∧ last line = Some ELLIPSIS).
Proof.
  intros Hpos line body. subst line body. unfold format_line.
  split; [done|]. split.
  { unfold Str.len. rewrite length_app. lia. }
  split; [by apply snippet_length|].
  split; [apply snippet_newline_free|].
  intros Hlong. destruct (snippet_truncated max_len msg Hpos Hlong) as [Hlen Hlast].
  split; [done|].
  destruct (snippet max_len msg) as [|c body] eqn:Hbody using rev_ind;
    [done|].
  rewrite app_assoc, last_snoc. by rewrite last_snoc in Hlast.
Qed.

Lemma format_line_snippet_bounded_witness :
  let msg := Sample.text_message Sample.alice (py "hello world") in
  1 ≤ 5
  ∧ Str.len (snippet 5 msg) = 5
  ∧ last (format_line 5 None msg false) = Some ELLIPSIS.
Proof.
  intros msg.
  destruct (format_line_snippet_bounded 5 None msg false ltac:(lia))
    as (_ & _ & _ & _ & Htrunc).
  split; [lia|]. apply Htrunc. vm_compute. reflexivity.
Defined.

(** C4 (as stated) fails: with [MAX_SNIPPET_LEN = 5] the line rendered for
    Alice's "hello world" is "> Alice (@alice): hell…": truncation occurred,
    yet the line is 23 characters long, neither at most 5 nor exactly 5. *)
Lemma format_line_exceeds_max_len :
  let msg := Sample.text_message Sample.alice (py "hello world") in
  let line := format_line 5 None msg false in
  5 < Str.len (message_text msg)
  ∧ line = py "> Alice (@alice): hell" ++ [ELLIPSIS]
  ∧ (¬ (Str.len line ≤ 5))
  ∧ Str.len line ≠ 5.
Proof. vm_compute. repeat split; congruence. Qed.

(** With a non-positive [MAX_SNIPPET_LEN] the slice bound is negative and
    even the snippet is longer than the bound. *)
Example snippet_nonpositive_bound :
  snippet 0 (Sample.text_message Sample.alice (py "abc")) = py "ab" ++ [ELLIPSIS].
Proof. reflexivity. Qed.

(** ** History store *)

Section History.

Lemma most_recent_length {A} (k : nat) (l : list A) :
  length (most_recent k l) = Nat.min k (length l).
Proof. unfold most_recent. rewrite length_drop. lia. Qed.

Lemma most_recent_snoc {A} (k : nat) (l : list A) (x : A) :
  most_recent k (most_recent k l ++ [x]) = most_recent k (l ++ [x]).
Proof.
  unfold most_recent.
  rewrite !length_app, length_drop. simpl.
  destruct (decide (length l ≤ k)%nat) as [Hle|Hgt].
  - replace (length l - k)%nat with 0%nat by lia. rewrite drop_0.
    f_equal. lia.
  - destruct (decide (k = 0)%nat) as [->|Hpos].
    + rewrite !drop_ge; [done | |]; rewrite length_app; simpl;
        [|rewrite length_drop]; lia.
    + rewrite (drop_app_le l [x] (length l + 1 - k)) by lia.
      rewrite drop_app_le by (rewrite length_drop; lia).
      rewrite drop_drop. f_equal. f_equal. lia.
Qed.

(** One [append] keeps the most recent [maxlen] elements. *)
Lemma deque_append_items {A} (x : A) (d : deque A) :
  (length (items d) ≤ maxlen d)%nat →
  items (deque_append x d) = most_recent (maxlen d) (items d ++ [x]).
Proof.
  intros Hle. unfold deque_append, most_recent. simpl.
  rewrite length_app. simpl.
  destruct (Nat.ltb_spec (maxlen d) (length (items d) + 1)) as [Hlt|Hge].
  - f_equal. lia.
  - replace (length (items d) + 1 - maxlen d)%nat with 0%nat by lia.
    by rewrite drop_0.
Qed.

Lemma appended_to_snoc chat ops c e :
  appended_to chat (ops ++ [(c, e)]) =
  appended_to chat ops ++ (if decide (c = chat) then [e] else []).
Proof.
  unfold appended_to. rewrite filter_app, fmap_app. f_equal.
  rewrite filter_cons, filter_nil. simpl. by case_decide.
Qed.

Lemma history_append_tracks limit ops h c e :
  0 ≤ limit → tracks (Z.to_nat limit) ops h →
  ∃ h', history_append limit c e h = Ok h'
        ∧ tracks (Z.to_nat limit) (ops ++ [(c, e)]) h'.
Proof.
  intros Hlimit Htr. unfold history_append, history_get.
  pose proof (Htr c) as Hc.
  destruct (h !! c) as [d|] eqn:Hlook; simpl.
  - destruct Hc as [Hmax Hitems].
    eexists. split; [done|]. intros chat. rewrite appended_to_snoc.
    destruct (decide (c = chat)) as [->|Hne].
    + rewrite lookup_insert_eq. split; [done|].
      rewrite deque_append_items, Hmax, Hitems.
      * apply most_recent_snoc.
      * rewrite Hitems, Hmax, most_recent_length. lia.
    + rewrite lookup_insert_ne, app_nil_r by done. apply Htr.
  - unfold deque_new. destruct (Z.ltb_spec limit 0); [lia|]. simpl.
    eexists. split; [done|]. intros chat. rewrite appended_to_snoc.
    rewrite insert_insert_eq.
    destruct (decide (c = chat)) as [->|Hne].
    + rewrite lookup_insert_eq. split; [done|].
      rewrite deque_append_items by (simpl; lia). simpl. by rewrite Hc.
    + rewrite lookup_insert_ne, app_nil_r by done. apply Htr.
Qed.

Lemma run_appends_snoc limit ops op h :
  run_appends limit (ops ++ [op]) h =
  run_appends limit ops h ≫= history_append limit op.1 op.2.
Proof. unfold run_appends. by rewrite foldl_snoc. Qed.

Lemma run_appends_tracks limit ops :
  0 ≤ limit →
  ∃ h, run_appends limit ops ∅ = Ok h ∧ tracks (Z.to_nat limit) ops h.
Proof.
  intros Hlimit. induction ops as [|[c e] ops IH] using rev_ind.
  - exists ∅. split; [done|]. intros chat. by rewrite lookup_empty.
  - destruct IH as (h & Hrun & Htr).
    destruct (history_append_tracks limit ops h c e Hlimit Htr)
      as (h' & Happ & Htr').
    exists h'. split; [|done].
    rewrite run_appends_snoc, Hrun. exact Happ.
Qed.

End History.

(** C5.  With a non-negative [MESSAGE_LIMIT], every sequence of appends
    succeeds, and afterwards the buffer of each chat holds at most
    [MESSAGE_LIMIT] entries: exactly the most recent
    [min(MESSAGE_LIMIT, number appended to that chat)] of the entries
    appended to it, in the order they were appended. *)
Theorem history_fifo (limit : Z) (ops : list (Z * entry)) (chat : Z) :
  0 ≤ limit →
  ∃ h, run_appends limit ops ∅ = Ok h
       ∧ (length (buffer chat h) ≤ Z.to_nat limit)%nat
       ∧ buffer chat h =
           most_recent
             (Nat.min (Z.to_nat limit) (length (appended_to chat ops)))
             (appended_to chat ops).
Proof.
  intros Hlimit.
  destruct (run_appends_tracks limit ops Hlimit) as (h & Hrun & Htr).
  exists h. split; [done|].
  assert (buffer chat h = most_recent (Z.to_nat limit) (appended_to chat ops))
    as Hbuf.
  { unfold buffer. specialize (Htr chat).
    destruct (h !! chat) as [d|]; [by destruct Htr | by rewrite Htr]. }
  rewrite Hbuf, most_recent_length. split; [lia|].
  unfold most_recent. f_equal. lia.
Qed.

Lemma history_fifo_witness :
  0 ≤ 2
  ∧ ∃ h, run_appends 2
           [(1, (false, py "a")); (2, (false, py "x")); (1, (true, py "b"));
            (1, (false, py "c"))] ∅ = Ok h
         ∧ buffer 1 h = [(true, py "b"); (false, py "c")].
Proof.
  split; [lia|].
  destruct (history_fifo 2
              [(1, (false, py "a")); (2, (false, py "x")); (1, (true, py "b"));
               (1, (false, py "c"))] 1 ltac:(lia)) as (h & Hrun & _ & Hbuf).
  exists h. split; [exact Hrun | exact Hbuf].
Defined.

(** ** Startup *)

(** C3 (the code departs from it).  With both credentials present and the
    token accepted, an environment without [MAX_SNIPPET_LEN] does not start
    with a default: [int(os.getenv("MAX_SNIPPET_LEN"))] is [int(None)] and
    the module body raises [TypeError]. *)
Theorem startup_without_max_snippet_len `{!Runtime}
    (env : gmap string pystr) (tok key : pystr) :
  env !! "BOT_TOKEN"%string = Some tok → tok ≠ [] →
  env !! "XAI_API_KEY"%string = Some key → key ≠ [] →
  validate_token tok = Ok tt →
  env !! "MAX_SNIPPET_LEN"%string = None →
  ∃ msg, startup env = Raise (Exn TypeError msg).
Proof.
  intros Htok Htok_ne Hkey Hkey_ne Hvalid Hmax.
  unfold startup, getenv. rewrite Htok, Hkey, Hmax.
  destruct tok as [|? ?]; [done|]. destruct key as [|? ?]; [done|].
  simpl. rewrite Hvalid. simpl. eauto.
Qed.

Lemma startup_without_max_snippet_len_witness :
  let env : gmap string pystr :=
    {[ "BOT_TOKEN"%string := py "1:token"; "XAI_API_KEY"%string := py "key" ]} in
  ∃ msg, @startup Sample.runtime env = Raise (Exn TypeError msg).
Proof.
  intros env.
  apply (@startup_without_max_snippet_len Sample.runtime env
           (py "1:token") (py "key")); vm_compute; congruence.
Defined.

(** A configuration is obtained only from an environment that defines both
    [MAX_SNIPPET_LEN] and [MESSAGE_LIMIT]: there are no defaults. *)
Lemma startup_needs_both `{!Runtime} (env : gmap string pystr) (cfg : Config) :
  startup env = Ok cfg →
  is_Some (env !! "MAX_SNIPPET_LEN"%string)
  ∧ is_Some (env !! "MESSAGE_LIMIT"%string).
Proof.
  unfold startup, getenv.
  destruct (Str.truthy (env !! "BOT_TOKEN"%string)); simpl; [|done].
  destruct (Str.truthy (env !! "XAI_API_KEY"%string)); simpl; [|done].
  destruct (validate_token _); simpl; [|done].
  destruct (env !! "MAX_SNIPPET_LEN"%string); simpl; [|done].
  destruct (int_of_str _); simpl; [|done].
  destruct (env !! "MESSAGE_LIMIT"%string); simpl; [|done].
  eauto.
Qed.

(** ** Completion client *)

Section AskGrok.

Context (cfg : Config) (w : World).

Lemma getitem_str_not_http v k e :
  getitem_str v k = Raise e → is_HTTPError e = false.
Proof.
  destruct v; simpl; try (intros [= <-]; done).
  case_match; [done | intros [= <-]; done].
Qed.

Lemma getitem_int_not_http v i e :
  getitem_int v i = Raise e → is_HTTPError e = false.
Proof.
  destruct v; simpl; try (intros [= <-]; done);
    (case_match; [done | intros [= <-]; done]).
Qed.

(** With a JSON body, a failure of line 167 is a [KeyError], [IndexError]
    or [TypeError], none of which the [except] clause catches. *)
Lemma extract_content_not_http r v e :
  body_json r = Some v → extract_content r = Raise e →
  is_HTTPError e = false.
Proof.
  intros Hbody. unfold extract_content, response_json. rewrite Hbody. simpl.
  destruct (getitem_str v _) as [choices|e1] eqn:H1; simpl;
    [|intros [= <-]; eauto using getitem_str_not_http].
  destruct (getitem_int choices 0) as [first|e2] eqn:H2; simpl;
    [|intros [= <-]; eauto using getitem_int_not_http].
  destruct (getitem_str first _) as [message|e3] eqn:H3; simpl;
    [|intros [= <-]; eauto using getitem_str_not_http].
  apply getitem_str_not_http.
Qed.

Lemma raise_for_status_http r e :
  raise_for_status r = Raise e → is_HTTPError e = true.
Proof. unfold raise_for_status. case_match; [done | by intros [= <-]]. Qed.

Hypothesis Hkey : Str.truthy (XAI_API_KEY cfg) = true.
Hypothesis Hlimit : 0 ≤ MESSAGE_HISTORY_LIMIT cfg.

(** One run of [ask_grok]: the chat's buffer exists afterwards, exactly
    one request has been posted, and the outcome is [completion_outcome]. *)
Lemma ask_grok_run chat prompt reply st :
  let req := grok_request cfg (history_lines chat st) reply prompt in
  ask_grok cfg w chat prompt reply st =
  (add_log (EPost req) (set_history (touch cfg chat (HISTORY st)) st),
   completion_outcome w req).
Proof.
  intros req. subst req. unfold ask_grok, history_lines, buffer, touch.
  rewrite Hkey. simpl.
  unfold mbind, M_bind, on_history, history_get, deque_new.
  destruct (Z.ltb_spec (MESSAGE_HISTORY_LIMIT cfg) 0) as [|_]; [lia|].
  unfold completion_outcome, try_except, fmap, M_fmap, mbind, M_bind, lift,
    log, mret, M_ret.
  destruct (HISTORY st !! chat) as [d|] eqn:Hd; simpl.
  all: match goal with
       | |- context [http_post w ?r] => destruct (http_post w r) as [r'|e] eqn:Hpost
       end; simpl; [|by destruct (is_HTTPError e)].
  all: destruct (raise_for_status r') as [[]|e] eqn:Hst; simpl;
    [|by rewrite (raise_for_status_http _ _ Hst)].
  all: unfold response_json at 1; destruct (body_json r') as [v|] eqn:Hbody;
    simpl; [|done].
  all: destruct (extract_content r') as [c|e] eqn:Hc; simpl; [done|].
  all: by rewrite (extract_content_not_http _ _ _ Hbody Hc).
Qed.

(** The blocks the code builds are those of the specification whenever
    the reply line, if given, is not the empty string. *)
Lemma context_blocks_spec history reply prompt :
  reply ≠ Some [] →
  context_blocks history reply prompt = spec_blocks history reply prompt.
Proof.
  intros Hreply. unfold context_blocks, spec_blocks.
  destruct history as [|l history]; destruct reply as [[|c r]|];
    try done; simpl; repeat case_decide; try done;
    rewrite ?bool_decide_eq_true_2, ?bool_decide_eq_false_2 by done; done.
Qed.

Lemma format_line_nonempty max_len display msg is_bot :
  format_line max_len display msg is_bot ≠ [].
Proof. unfold format_line, author_label. by destruct is_bot. Qed.

End AskGrok.

(** C1 (the code departs from it).  When the endpoint answers 2xx with a
    JSON body in which [choices[0].message.content] cannot be reached, the
    [KeyError], [IndexError] or [TypeError] of line 167 is not an
    [httpx.HTTPError]: [ask_grok] raises it to its caller instead of
    returning a marker string. *)
Theorem ask_grok_missing_content_raises (cfg : Config)
    (w : World) (chat : Z) (prompt : pystr) (reply : option pystr)
    (st : State) (r : Response) (v : json) (e : exn) :
  Str.truthy (XAI_API_KEY cfg) = true →
  0 ≤ MESSAGE_HISTORY_LIMIT cfg →
  http_post w (grok_request cfg (history_lines chat st) reply prompt) = Ok r →
  200 ≤ status_code r ≤ 299 →
  body_json r = Some v →
  extract_content r = Raise e →
  (ask_grok cfg w chat prompt reply st).2 = Raise e
  ∧ is_HTTPError e = false.
Proof.
  intros Hkey Hlimit Hpost Hstatus Hbody Hpath.
  rewrite ask_grok_run by done. simpl.
  unfold completion_outcome. rewrite Hpost.
  unfold raise_for_status.
  destruct (Z.leb_spec 200 (status_code r)); [|lia].
  destruct (Z.leb_spec (status_code r) 299); [|lia]. simpl.
  rewrite Hbody. split; [done|]. eauto using extract_content_not_http.
Qed.

Lemma ask_grok_missing_content_raises_witness :
  let w := Sample.world (Ok (Sample.ok_response (JDict []))) in
  (ask_grok Sample.cfg w 100 (py "hi") None Sample.ready).2
  = Raise (Exn KeyError (py "'choices'")).
Proof.
  intros w.
  apply (ask_grok_missing_content_raises Sample.cfg w 100
           (py "hi") None Sample.ready (Sample.ok_response (JDict []))
           (JDict []) (Exn KeyError (py "'choices'")));
    vm_compute; (reflexivity || (intros; discriminate) || (split; congruence)).
Defined.

(** An empty [choices] list escapes as an [IndexError]. *)
Example ask_grok_empty_choices :
  let w := Sample.world
             (Ok (Sample.ok_response (JDict [(py "choices", JList [])]))) in
  (ask_grok Sample.cfg w 100 (py "hi") None Sample.ready).2
  = Raise (Exn IndexError (py "list index out of range")).
Proof. vm_compute. reflexivity. Qed.

(** C8.  When the request fails in transport (connection failure, timeout)
    or is answered with a non-2xx status, [ask_grok] returns the marker
    "<Grok API error – detail>" built from the text of the exception, raises
    nothing, and has posted the request exactly once. *)
Theorem ask_grok_transport_failure (cfg : Config) (w : World)
    (chat : Z) (prompt : pystr) (reply : option pystr) (st : State)
    (e : exn) :
  Str.truthy (XAI_API_KEY cfg) = true →
  0 ≤ MESSAGE_HISTORY_LIMIT cfg →
  let req := grok_request cfg (history_lines chat st) reply prompt in
  let run := ask_grok cfg w chat prompt reply st in
  transport_failure w req e →
  run.2 = Ok (JStr (py "<Grok API error " ++ [EN_DASH] ++ py " "
                    ++ exn_str e ++ py ">"))
  ∧ LOG run.1 = LOG st ++ [EPost req]
  ∧ length (filter (fun ev => is_post ev = true) (drop (length (LOG st)) (LOG run.1))) = 1%nat.
Proof.
  intros Hkey Hlimit req run Hfail. subst run req.
  rewrite ask_grok_run by done. simpl.
  split; [|split; [done|]].
  - unfold completion_outcome.
    destruct Hfail as [k detail Hpost Hk | r Hpost Hstatus]; rewrite Hpost.
    + done.
    + unfold raise_for_status.
      destruct (Z.leb_spec 200 (status_code r));
        destruct (Z.leb_spec (status_code r) 299); simpl; try done; lia.
  - by rewrite drop_app_length.
Qed.

Lemma ask_grok_transport_failure_witness :
  let w := Sample.world (Raise (Exn (Httpx ConnectTimeout) (py "timed out"))) in
  (ask_grok Sample.cfg w 100 (py "hi") None Sample.ready).2
  = Ok (JStr (py "<Grok API error " ++ [EN_DASH] ++ py " timed out>")).
Proof.
  intros w.
  refine (proj1 (ask_grok_transport_failure Sample.cfg w 100
            (py "hi") None Sample.ready
            (Exn (Httpx ConnectTimeout) (py "timed out")) _ _ _)).
  - reflexivity.
  - vm_compute. discriminate.
  - by apply request_failed.
Defined.

(** A 503 answer is reported the same way. *)
Example ask_grok_status_503 :
  let r := {| status_code := 503; status_message := py "Server error";
              body_json := None |} in
  (ask_grok Sample.cfg (Sample.world (Ok r)) 100 (py "hi")
     None Sample.ready).2
  = Ok (JStr (py "<Grok API error " ++ [EN_DASH] ++ py " Server error>")).
Proof. vm_compute. reflexivity. Qed.

(** Whatever the endpoint does, one call of [ask_grok] posts at most one
    request. *)
Lemma ask_grok_posts_at_most_once (cfg : Config) (w : World)
    (chat : Z) (prompt : pystr) (reply : option pystr) (st : State) :
  ∃ evs, LOG (ask_grok cfg w chat prompt reply st).1 = LOG st ++ evs
         ∧ (length (filter (fun ev => is_post ev = true) evs) ≤ 1)%nat.
Proof.
  unfold ask_grok.
  destruct (Str.truthy (XAI_API_KEY cfg)); cbn [negb];
    [|exists []; rewrite app_nil_r; split; [reflexivity | simpl; lia]].
  unfold mbind at 1. unfold M_bind at 1. unfold on_history.
  destruct (history_get _ _ _) as [[d h]|e0];
    [|exists []; rewrite app_nil_r; split; [reflexivity | simpl; lia]].
  eexists [_]. split; [|rewrite filter_cons, filter_nil; case_decide; simpl; lia].
  unfold try_except, fmap, M_fmap, mbind, M_bind, lift, log, mret, M_ret.
  simpl. destruct (http_post w _) as [r|e]; simpl.
  - destruct (raise_for_status r) as [[]|e]; simpl.
    + destruct (response_json r) as [v|e]; simpl.
      * destruct (extract_content r) as [c|e]; simpl; [done|].
        by destruct (is_HTTPError e).
      * destruct (is_ValueError e); simpl; [done|].
        by destruct (is_HTTPError e).
    + by destruct (is_HTTPError e).
  - by destruct (is_HTTPError e).
Qed.

(** C6.  The request [ask_grok] posts carries two entries: the fixed system
    instruction, and a user entry whose content is the blocks of the
    specification joined by a blank line: "Chat history" (when the history
    is not empty, its lines in order), "Replied message" (when a replied-to
    message is given and its rendered line is not among the history lines),
    "User prompt" (always, with the prompt verbatim). *)
Theorem ask_grok_request_blocks (cfg : Config) (w : World) (chat : Z)
    (prompt : pystr) (replied : option (Message * bool)) (st : State) :
  Str.truthy (XAI_API_KEY cfg) = true →
  0 ≤ MESSAGE_HISTORY_LIMIT cfg →
  let history := snd <$> buffer chat (HISTORY st) in
  let reply :=
    (fun mb => format_line (MAX_SNIPPET_LEN cfg) (BOT_DISPLAY st) mb.1 mb.2)
      <$> replied in
  ∃ req,
    LOG (ask_grok cfg w chat prompt reply st).1 = LOG st ++ [EPost req]
    ∧ messages (json_payload req) =
        [ {| role := py "system"; content := SYSTEM_INSTRUCTION |};
          {| role := py "user";
             content := Str.join [NL; NL] (spec_blocks history reply prompt) |} ].
Proof.
  intros Hkey Hlimit history reply.
  rewrite ask_grok_run by done. simpl. eexists. split; [done|]. simpl.
  rewrite context_blocks_spec; [done|].
  subst reply. destruct replied as [[m b]|]; simpl; [|done].
  intros [= Hnil]. by apply format_line_nonempty in Hnil.
Qed.

Lemma ask_grok_request_blocks_witness :
  let st := (@handle_group Sample.runtime Sample.cfg (Sample.world (Ok (Sample.ok_response JNull)))
               (Sample.text_message Sample.alice (py "hello")) Sample.ready).1 in
  let replied := Sample.text_message Sample.bot_user (py "earlier answer") in
  ∃ req,
    LOG (ask_grok Sample.cfg (Sample.world (Ok (Sample.ok_response JNull))) 100
           (py "why?")
           (Some (format_line 160 (Some (py "Grok")) replied true)) st).1
    = [EPost req]
    ∧ content <$> messages (json_payload req) =
        [ SYSTEM_INSTRUCTION;
          py "Chat history:" ++ [NL] ++ py "> Alice (@alice): hello"
          ++ [NL; NL] ++ py "Replied message:" ++ [NL]
          ++ py "> Grok (you): earlier answer"
          ++ [NL; NL] ++ py "User prompt:" ++ [NL] ++ py "why?" ].
Proof.
  intros st replied.
  destruct (ask_grok_request_blocks Sample.cfg
              (Sample.world (Ok (Sample.ok_response JNull))) 100 (py "why?")
              (Some (replied, true)) st)
    as (req & Hlog & Hmsgs).
  - reflexivity.
  - vm_compute. discriminate.
  - exists req. split; [exact Hlog|]. rewrite Hmsgs. vm_compute. reflexivity.
Defined.

(** ** Mention detector *)

Section Replace.

Implicit Types (old new s pre rest : pystr).

Lemma replace_scan_skip old new pre rest :
  Str.replace_scan old new (pre ++ rest) (length pre) =
  Str.replace_scan old new rest 0.
Proof. induction pre as [|c pre IH]; simpl; [by destruct rest | done]. Qed.

Lemma replace_scan_absent old new s :
  Str.contains old s = false → Str.replace_scan old new s 0 = s.
Proof.
  induction s as [|c s IH]; [done|].
  cbn [Str.contains Str.replace_scan].
  intros [Hhere Hlater]%orb_false_elim.
  rewrite Hhere, IH; done.
Qed.

Lemma take_app_take {A} (n m : nat) (l k : list A) :
  (n ≤ length l + m)%nat → take n (l ++ take m k) = take n (l ++ k).
Proof.
  intros Hn. rewrite !take_app, take_take. do 2 f_equal. lia.
Qed.

(** An occurrence that starts inside [c :: pre] lies within [c :: pre]
    followed by all but the last character of [old]. *)
Lemma starts_with_overlap old c pre rest :
  Str.starts_with old (c :: pre ++ old ++ rest) =
  Str.starts_with old (c :: pre ++ take (Nat.pred (length old)) old).
Proof.
  apply eq_true_iff_eq. rewrite !starts_with_take.
  rewrite (app_comm_cons pre (old ++ rest)), (app_comm_cons pre (take _ old)).
  rewrite (take_app_take (length old) _ (c :: pre) old) by (simpl; lia).
  rewrite !take_app. simpl.
  replace (length old - S (length pre) - length old)%nat with 0%nat by lia.
  by rewrite take_0, app_nil_r.
Qed.

Lemma replace_scan_first old new pre rest :
  old ≠ [] →
  Str.contains old (pre ++ take (Nat.pred (length old)) old) = false →
  Str.replace_scan old new (pre ++ old ++ rest) 0 =
  pre ++ new ++ Str.replace_scan old new rest 0.
Proof.
  intros Hold. induction pre as [|c pre IH]; intros Habsent.
  - destruct old as [|a old]; [done|]. simpl app.
    cbn [Str.replace_scan].
    replace (Str.starts_with (a :: old) (a :: old ++ rest)) with true
      by (symmetry; apply starts_with_prefix; by exists rest).
    simpl. by rewrite replace_scan_skip.
  - simpl app in *. cbn [Str.contains] in Habsent.
    apply orb_false_elim in Habsent as [Hhere Hlater].
    cbn [Str.replace_scan]. rewrite starts_with_overlap, Hhere.
    by rewrite IH.
Qed.

(** The leftmost occurrence of a non-empty [old] in a string that has
    one. *)
Lemma leftmost_occurrence old s :
  old ≠ [] → Str.contains old s = true →
  ∃ pre rest,
    s = pre ++ old ++ rest
    ∧ Str.contains old (pre ++ take (Nat.pred (length old)) old) = false.
Proof.
  intros Hold. induction s as [|c s IH]; cbn [Str.contains].
  - destruct old; [done | discriminate].
  - destruct (Str.starts_with old (c :: s)) eqn:Hhere.
    + intros _. apply starts_with_prefix in Hhere as [rest ->].
      exists [], rest. split; [done|]. simpl.
      apply not_true_is_false. intros Hc%contains_length.
      rewrite length_take in Hc. destruct old; [done | simpl in Hc; lia].
    + simpl. intros (pre & rest & -> & Habsent)%IH.
      exists (c :: pre), rest. split; [done|].
      simpl app. cbn [Str.contains].
      by rewrite <- (starts_with_overlap old c pre rest), Hhere, Habsent.
Qed.

(** [replace] with an empty replacement computes the string the relation
    [removed] describes. *)
Lemma removed_replace old s r :
  old ≠ [] → removed old s r → Str.replace old [] s = r.
Proof.
  intros Hold Hrem. destruct old as [|a old]; [done|]. unfold Str.replace.
  induction Hrem as [t Habsent | pre rest r Hleft Hrem IH].
  - by apply replace_scan_absent.
  - rewrite replace_scan_first by done. by rewrite IH.
Qed.

Lemma replace_removed old s :
  old ≠ [] → removed old s (Str.replace old [] s).
Proof.
  intros Hold. remember (length s) as n eqn:Hn.
  revert s Hn. induction n as [n IH] using lt_wf_ind. intros s ->.
  destruct (Str.contains old s) eqn:Hocc.
  - destruct (leftmost_occurrence old s Hold Hocc)
      as (pre & rest & -> & Hleft).
    assert (Str.replace old [] (pre ++ old ++ rest)
            = pre ++ Str.replace old [] rest) as ->.
    { destruct old as [|a old]; [done|]. unfold Str.replace.
      by rewrite replace_scan_first. }
    apply removed_first; [done|].
    apply (IH (length rest)); [|done].
    rewrite !length_app. destruct old; [done | simpl; lia].
  - assert (Str.replace old [] s = s) as ->.
    { destruct old as [|a old]; [done|]. unfold Str.replace.
      by apply replace_scan_absent. }
    by apply removed_none.
Qed.

(** [removed] is a function, and [replace] computes it. *)
Lemma removed_iff_replace old s r :
  old ≠ [] → removed old s r ↔ r = Str.replace old [] s.
Proof.
  intros Hold. split.
  - intros Hrem. symmetry. by apply removed_replace.
  - intros ->. by apply replace_removed.
Qed.

End Replace.

Section Strip.

Implicit Types (s r p lead trail : pystr).

Lemma lstrip_split s :
  ∃ lead, s = lead ++ Str.lstrip s
          ∧ Forall (fun c => Str.is_space c = true) lead
          ∧ ∀ c, head (Str.lstrip s) = Some c → Str.is_space c = false.
Proof.
  induction s as [|c s (lead & Hs & Hlead & Hhead)]; simpl.
  - exists []. by repeat split.
  - destruct (Str.is_space c) eqn:Hc.
    + exists (c :: lead). simpl. rewrite <- Hs. repeat split; auto.
    + exists []. repeat split; auto. simpl. by intros ? [= <-].
Qed.

Lemma lstrip_spaces lead s :
  Forall (fun c => Str.is_space c = true) lead →
  Str.lstrip (lead ++ s) = Str.lstrip s.
Proof. induction 1 as [|c lead Hc _ IH]; simpl; [done | by rewrite Hc]. Qed.

Lemma lstrip_fixed s :
  (∀ c, head s = Some c → Str.is_space c = false) → Str.lstrip s = s.
Proof. destruct s as [|c s]; simpl; [done|]. intros H. by rewrite H. Qed.

Lemma lstrip_all_spaces s :
  Forall (fun c => Str.is_space c = true) s → Str.lstrip s = [].
Proof. intros H. rewrite <- (app_nil_r s). by rewrite lstrip_spaces. Qed.

Lemma rstrip_split s :
  ∃ trail, s = Str.rstrip s ++ trail
           ∧ Forall (fun c => Str.is_space c = true) trail
           ∧ ∀ c, last (Str.rstrip s) = Some c → Str.is_space c = false.
Proof.
  unfold Str.rstrip.
  destruct (lstrip_split (reverse s)) as (lead & Hs & Hlead & Hhead).
  exists (reverse lead). split; [|split].
  - rewrite <- reverse_app, <- Hs. by rewrite reverse_involutive.
  - by apply Forall_reverse.
  - intros c. rewrite last_reverse. apply Hhead.
Qed.

(** [strip] trims. *)
Lemma strip_trimmed r : trimmed r (Str.strip r).
Proof.
  unfold Str.strip.
  destruct (lstrip_split r) as (lead & Hr & Hlead & Hhead).
  destruct (rstrip_split (Str.lstrip r)) as (trail & Hl & Htrail & Hlast).
  exists lead, trail. split; [by rewrite <- Hl|].
  split; [done|]. split; [done|]. split; [|done].
  intros c Hc. apply Hhead. rewrite Hl.
  by destruct (Str.rstrip (Str.lstrip r)).
Qed.

(** Trimming has one result. *)
Lemma trimmed_strip r p : trimmed r p → p = Str.strip r.
Proof.
  intros (lead & trail & -> & Hlead & Htrail & Hhead & Hlast).
  unfold Str.strip, Str.rstrip. rewrite lstrip_spaces by done.
  destruct p as [|c p].
  - simpl. rewrite (lstrip_all_spaces trail) by done. reflexivity.
  - rewrite (lstrip_fixed ((c :: p) ++ trail))
      by (simpl; intros ? [= <-]; by apply Hhead).
    rewrite reverse_app, lstrip_spaces by by apply Forall_reverse.
    rewrite lstrip_fixed; [by rewrite reverse_involutive|].
    intros c'. rewrite head_reverse. apply Hlast.
Qed.

End Strip.

(** The detector computes the removal and the trimming. *)
Lemma detect_removed_trimmed `{!Runtime} (handle t r p : pystr) :
  handle ≠ [] →
  (∃ pre post, str_lower t = pre ++ handle ++ post) →
  removed handle t r → trimmed r p →
  detect handle (Some t) =
  match p with [] => EmptyPrompt | _ :: _ => Prompt p end.
Proof.
  intros Hne Hocc%contains_occurrence Hr Hp.
  assert (Str.or_else (Some t) [] = t) as Ht by by destruct t.
  unfold detect. rewrite Ht, Hocc. cbn [negb].
  apply removed_replace in Hr; [|done]. apply trimmed_strip in Hp.
  rewrite Hr, <- Hp. by destruct p.
Qed.

(** Occurrences of the handle in its stored letter case.  Let the stored
    handle be ["@" + username.lower()].  For every message text whose
    lower-cased form contains the handle, the detector signals a mention,
    and the prompt it extracts is the text with every occurrence of the
    handle literal removed, then trimmed; the empty prompt is signalled
    apart.  Such a removal and trimming always exist and are unique. *)
Lemma detect_literal_removed `{!Runtime} (name t : pystr) :
  let handle := py "@" ++ str_lower name in
  (∃ pre post, str_lower t = pre ++ handle ++ post) →
  detect handle (Some t) ≠ NotAddressed
  ∧ (∃ r p, removed handle t r ∧ trimmed r p)
  ∧ ∀ r p, removed handle t r → trimmed r p →
      detect handle (Some t) =
      match p with [] => EmptyPrompt | _ :: _ => Prompt p end.
Proof.
  intros handle Hocc.
  assert (handle ≠ []) as Hne by done. clearbody handle.
  split; [|split].
  - rewrite (detect_removed_trimmed handle t _ _ Hne Hocc
               (replace_removed handle t Hne) (strip_trimmed _)).
    by case_match.
  - eauto using replace_removed, strip_trimmed.
  - intros r p. by apply detect_removed_trimmed.
Qed.

Example detect_spec_example :
  @detect Sample.runtime (py "@bot") (Some (py "hey @bot do X"))
  = Prompt (py "hey  do X").
Proof. reflexivity. Qed.

(** C2 (the code departs from it).  The check of line 197 lower-cases the
    text, the [replace] of line 200 does not: when the handle is written in
    the text in another letter case only, the mention is signalled but
    nothing is removed, and the prompt is the whole text, trimmed, with the
    handle still in it. *)
Theorem detect_other_case_kept `{!Runtime} (name t p : pystr) :
  let handle := py "@" ++ str_lower name in
  (∃ pre post, str_lower t = pre ++ handle ++ post) →
  (¬ ∃ pre post, t = pre ++ handle ++ post) →
  trimmed t p →
  detect handle (Some t) =
  match p with [] => EmptyPrompt | _ :: _ => Prompt p end.
Proof.
  intros handle Hocc Hnone Hp.
  assert (handle ≠ []) as Hne by done. clearbody handle.
  apply (detect_removed_trimmed handle t t p Hne Hocc); [|done].
  apply removed_none. apply not_true_is_false.
  by rewrite contains_occurrence.
Qed.

Lemma detect_other_case_kept_witness :
  @detect Sample.runtime (py "@bot") (Some (py "@BOT hi")) = Prompt (py "@BOT hi").
Proof.
  apply (@detect_other_case_kept Sample.runtime (py "Bot") (py "@BOT hi")
           (py "@BOT hi")).
  - exists [], (py " hi"). reflexivity.
  - rewrite <- contains_occurrence. vm_compute. discriminate.
  - exists [], []. repeat split; try constructor.
    + intros c [= <-]. reflexivity.
    + intros c [= <-]. reflexivity.
Defined.

(** The handle alone, typed in another letter case, is sent on as a prompt
    instead of being answered with the usage hint. *)
Example detect_other_case_alone :
  @detect Sample.runtime (py "@bot") (Some (py "@Bot")) = Prompt (py "@Bot").
Proof. reflexivity. Qed.


(** ** Conversation handler *)

Section HandlerFacts.

Context `{!Runtime} (cfg : Config) (w : World).
Hypothesis Hlimit : 0 ≤ MESSAGE_HISTORY_LIMIT cfg.

Lemma history_append_push chat e h :
  history_append (MESSAGE_HISTORY_LIMIT cfg) chat e h
  = Ok (push (MESSAGE_HISTORY_LIMIT cfg) chat e h).
Proof.
  unfold history_append, history_get, push, deque_new.
  destruct (h !! chat) as [d|]; simpl; [done|].
  destruct (Z.ltb_spec (MESSAGE_HISTORY_LIMIT cfg) 0); [lia|]. simpl.
  by rewrite insert_insert_eq.
Qed.

(** An append adds the entry at the end of the chat's buffer and evicts at
    most the single oldest entry; other chats are untouched. *)
Lemma buffer_push chat e h :
  ∃ k, (k ≤ 1)%nat
       ∧ buffer chat (push (MESSAGE_HISTORY_LIMIT cfg) chat e h)
         = drop k (buffer chat h ++ [e]).
Proof.
  unfold buffer, push. rewrite lookup_insert_eq. unfold deque_append.
  destruct (h !! chat) as [d|]; simpl; case_match;
    first [ exists 0%nat; split; [lia | reflexivity]
          | exists 1%nat; split; [lia | reflexivity] ].
Qed.

Lemma buffer_push_other chat chat' e h :
  chat ≠ chat' →
  buffer chat' (push (MESSAGE_HISTORY_LIMIT cfg) chat e h) = buffer chat' h.
Proof. intros Hne. unfold buffer, push. by rewrite lookup_insert_ne. Qed.

Lemma push_present chat e h :
  is_Some (push (MESSAGE_HISTORY_LIMIT cfg) chat e h !! chat).
Proof. unfold push. rewrite lookup_insert_eq. eauto. Qed.

Lemma ensure_identity_cached st u :
  BOT_USERNAME st = Some u → ensure_identity w st = (st, Ok tt).
Proof.
  intros Hu. unfold ensure_identity, mbind, M_bind, get_state. by rewrite Hu.
Qed.

Lemma record_line_run chat msg b st :
  record_line cfg chat msg b st =
  (set_history
     (push (MESSAGE_HISTORY_LIMIT cfg) chat
        (b, format_line (MAX_SNIPPET_LEN cfg) (BOT_DISPLAY st) msg b)
        (HISTORY st)) st,
   Ok tt).
Proof.
  unfold record_line, format_line_m, mbind, M_bind, get_state, mret, M_ret,
    on_history.
  by rewrite history_append_push.
Qed.

(** One run of the handler once the identity is known. *)
Lemma handle_group_run msg st u :
  BOT_USERNAME st = Some u →
  handle_group cfg w msg st =
  let is_bot := eq_bot_id (user_id (from_user msg)) (BOT_ID st) in
  let st1 :=
    set_history
      (push (MESSAGE_HISTORY_LIMIT cfg) (chat_id msg)
         (is_bot, format_line (MAX_SNIPPET_LEN cfg) (BOT_DISPLAY st) msg is_bot)
         (HISTORY st)) st in
  match detect u (text msg) with
  | NotAddressed => (st1, Ok tt)
  | EmptyPrompt =>
      (add_log (EReply msg (usage_hint u)) st1,
       send_reply w msg (usage_hint u) ≫= fun _ => Ok tt)
  | Prompt p => answer_query cfg w msg (BOT_ID st) p st1
  end.
Proof.
  intros Hu. unfold handle_group.
  unfold mbind at 1. unfold M_bind at 1. rewrite (ensure_identity_cached _ _ Hu).
  unfold mbind at 1. unfold M_bind at 1. unfold get_state at 1.
  unfold mbind at 1. unfold M_bind at 1. rewrite record_line_run.
  rewrite Hu. unfold mbind at 1. unfold M_bind at 1. unfold mret at 1, M_ret at 1.
  cbv zeta. destruct (detect u (text msg)); [done| |done].
  unfold mbind, M_bind, log, lift, mret, M_ret. simpl.
  by destruct (send_reply w msg (usage_hint u)).
Qed.

(** Lines 205-216 step by step. *)
Lemma answer_query_run msg bot_id p st1 :
  let chat := chat_id msg in
  let reply :=
    (fun replied =>
       format_line (MAX_SNIPPET_LEN cfg) (BOT_DISPLAY st1) replied
         (eq_bot_id (user_id (from_user replied)) bot_id))
      <$> reply_to_message msg in
  let st2 := add_log (EChatAction chat (py "typing")) st1 in
  answer_query cfg w msg bot_id p st1 =
  match send_chat_action w chat (py "typing") with
  | Raise e => (st2, Raise e)
  | Ok _ =>
      match ask_grok cfg w chat p reply st2 with
      | (st3, Raise e) => (st3, Raise e)
      | (st3, Ok a) =>
          let st4 := add_log (EAnswer msg a) st3 in
          match send_answer w msg a with
          | Raise e => (st4, Raise e)
          | Ok sent =>
              (set_history
                 (push (MESSAGE_HISTORY_LIMIT cfg) chat
                    (true,
                     format_line (MAX_SNIPPET_LEN cfg) (BOT_DISPLAY st4) sent true)
                    (HISTORY st4)) st4,
               Ok tt)
          end
      end
  end.
Proof.
  intros chat reply st2. unfold answer_query.
  unfold mbind at 1. unfold M_bind at 1.
  assert (match reply_to_message msg with
          | Some replied =>
              Some <$> format_line_m cfg replied
                         (eq_bot_id (user_id (from_user replied)) bot_id)
          | None => mret None
          end st1 = (st1, Ok reply)) as ->.
  { subst reply. by destruct (reply_to_message msg). }
  unfold mbind at 1. unfold M_bind at 1. unfold log at 1.
  unfold mbind at 1. unfold M_bind at 1. unfold lift at 1.
  fold chat. fold st2.
  destruct (send_chat_action w chat (py "typing")) as [[]|e]; [|done].
  unfold mbind at 1. unfold M_bind at 1.
  destruct (ask_grok cfg w chat p reply st2) as [st3 [a|e]]; [|done].
  unfold mbind at 1. unfold M_bind at 1. unfold log at 1.
  unfold mbind at 1. unfold M_bind at 1. unfold lift at 1.
  destruct (send_answer w msg a) as [sent|e]; [|done].
  by rewrite record_line_run.
Qed.

Lemma set_history_same st : set_history (HISTORY st) st = st.
Proof. by destruct st. Qed.

(** [ask_grok] reads the history of a chat that is present and leaves the
    state as it is, apart from logging the request it posts. *)
Lemma ask_grok_state chat prompt reply st :
  is_Some (HISTORY st !! chat) →
  let st' := (ask_grok cfg w chat prompt reply st).1 in
  st' = st ∨ ∃ req, st' = add_log (EPost req) st.
Proof.
  intros [d Hd]. unfold ask_grok.
  destruct (Str.truthy (XAI_API_KEY cfg)); cbn [negb]; [|by left].
  right. unfold mbind at 1. unfold M_bind at 1.
  unfold on_history, history_get. rewrite Hd, set_history_same.
  eexists.
  unfold try_except, fmap, M_fmap, mbind, M_bind, lift, log, mret, M_ret.
  simpl. destruct (http_post w _) as [r|e]; simpl.
  - destruct (raise_for_status r) as [[]|e]; simpl.
    + destruct (response_json r) as [v|e]; simpl.
      * destruct (extract_content r) as [c|e]; simpl; [done|].
        by destruct (is_HTTPError e).
      * destruct (is_ValueError e); simpl; [done|].
        by destruct (is_HTTPError e).
    + by destruct (is_HTTPError e).
  - by destruct (is_HTTPError e).
Qed.

Lemma new_events_app st st' evs :
  LOG st' = LOG st ++ evs → new_events st st' = evs.
Proof. unfold new_events. intros ->. by rewrite drop_app_length. Qed.

(** The ways lines 205-216 can go: either no answer is sent and the
    history is as before, or [msg.answer] is called once, last, and the
    history grows by the line of the sent message exactly when Telegram
    returns it. *)
Lemma answer_query_outcome msg bot_id p st1 :
  is_Some (HISTORY st1 !! chat_id msg) →
  let run := answer_query cfg w msg bot_id p st1 in
  (∃ evs, LOG run.1 = LOG st1 ++ evs
          ∧ Forall (fun ev => ∀ to a, ev ≠ EAnswer to a) evs
          ∧ HISTORY run.1 = HISTORY st1)
  ∨ (∃ evs a,
       LOG run.1 = LOG st1 ++ evs ++ [EAnswer msg a]
       ∧ Forall (fun ev => ∀ to a, ev ≠ EAnswer to a) evs
       ∧ match send_answer w msg a with
         | Raise _ => HISTORY run.1 = HISTORY st1
         | Ok sent =>
             run.2 = Ok tt
             ∧ HISTORY run.1 =
                 push (MESSAGE_HISTORY_LIMIT cfg) (chat_id msg)
                   (true,
                    format_line (MAX_SNIPPET_LEN cfg) (BOT_DISPLAY st1) sent true)
                   (HISTORY st1)
         end).
Proof.
  intros Hpresent run. subst run. rewrite answer_query_run. cbv zeta.
  set (typing := EChatAction (chat_id msg) (py "typing")).
  set (reply := _ <$> reply_to_message msg).
  destruct (send_chat_action w (chat_id msg) (py "typing")) as [[]|e].
  2:{ left. exists [typing]. split; [done|]. split; [|done].
      by repeat constructor. }
  pose proof (ask_grok_state (chat_id msg) p reply (add_log typing st1)
                Hpresent) as Hst.
  destruct (ask_grok cfg w (chat_id msg) p reply (add_log typing st1))
    as [st3 r]. simpl in Hst.
  assert (∃ evs, LOG st3 = LOG st1 ++ evs
                 ∧ Forall (fun ev => ∀ to a, ev ≠ EAnswer to a) evs
                 ∧ HISTORY st3 = HISTORY st1
                 ∧ BOT_DISPLAY st3 = BOT_DISPLAY st1)
    as (evs & Hlog & Hevs & Hhist & Hdisp).
  { destruct Hst as [->|[req ->]].
    - exists [typing]. split; [done|]. split; [|done].
      by repeat constructor.
    - exists [typing; EPost req]. split; [|split; [|done]].
      + simpl. by rewrite <- app_assoc.
      + by repeat constructor. }
  destruct r as [a|e]; [|left; exists evs; by repeat split].
  right. exists evs, a.
  destruct (send_answer w msg a) as [sent|e]; simpl.
  - rewrite Hlog, Hhist, Hdisp, app_assoc. by repeat split.
  - rewrite Hlog, Hhist, app_assoc. by repeat split.
Qed.

Lemma ensure_identity_resolves st st' :
  ensure_identity w st = (st', Ok tt) →
  (∃ u, BOT_USERNAME st = Some u ∧ st' = st)
  ∨ (∃ me name,
       BOT_USERNAME st = None ∧ get_me w = Ok me ∧ username me = Some name
       ∧ BOT_USERNAME st' = Some (py "@" ++ str_lower name)
       ∧ HISTORY st' = HISTORY st).
Proof.
  unfold ensure_identity, mbind, M_bind, get_state, log, lift, raise,
    set_identity, mret, M_ret.
  destruct (BOT_USERNAME st) as [u|] eqn:Hu.
  - intros [= <-]. left. eauto.
  - destruct (get_me w) as [me|e]; [|done].
    destruct (username me) as [name|] eqn:Hname; [|done].
    intros [= <-]. right. exists me, name. by repeat split.
Qed.

End HandlerFacts.

Ltac event_cases H :=
  repeat (apply elem_of_cons in H as [H|H]; [try discriminate H|]);
  try (by apply elem_of_nil in H).

(** C7.  In a run of the handler (identity resolved, non-negative
    [MESSAGE_LIMIT]) the line of the inbound message is appended once,
    first, whether or not the bot is mentioned; when the query is answered
    the line of the sent reply is appended after it, and the run ends
    normally; nothing else changes the history. *)
Theorem handle_group_appends `{!Runtime} (cfg : Config) (w : World)
    (msg : Message) (st : State) (u : pystr) :
  0 ≤ MESSAGE_HISTORY_LIMIT cfg →
  BOT_USERNAME st = Some u →
  let run := handle_group cfg w msg st in
  let limit := MESSAGE_HISTORY_LIMIT cfg in
  let render := format_line (MAX_SNIPPET_LEN cfg) (BOT_DISPLAY st) in
  let is_bot := eq_bot_id (user_id (from_user msg)) (BOT_ID st) in
  let h1 := push limit (chat_id msg) (is_bot, render msg is_bot) (HISTORY st) in
  (∀ sent, answered w msg (new_events st run.1) sent →
     run.2 = Ok tt
     ∧ HISTORY run.1 = push limit (chat_id msg) (true, render sent true) h1)
  ∧ ((∀ sent, ¬ answered w msg (new_events st run.1) sent) →
     HISTORY run.1 = h1)
  ∧ (detect u (text msg) = NotAddressed →
     run.2 = Ok tt ∧ HISTORY run.1 = h1).
Proof.
  intros Hlimit Hu run limit render is_bot h1. subst run.
  rewrite (handle_group_run cfg w Hlimit msg st u Hu). cbv zeta.
  fold is_bot. fold limit. fold render. fold h1.
  destruct (detect u (text msg)) as [| |p] eqn:Hdet.
  - (* not addressed *)
    split; [|done].
    intros sent (a & Hin & _). rewrite (new_events_app st _ []) in Hin.
    + event_cases Hin.
    + by rewrite app_nil_r.
  - (* usage hint *)
    split; [|done].
    intros sent (a & Hin & _).
    rewrite (new_events_app st _ [EReply msg (usage_hint u)]) in Hin by done.
    event_cases Hin.
  - (* a query *)
    split; [|split; [|done]].
    all: destruct (answer_query_outcome cfg w Hlimit msg (BOT_ID st) p
                     (set_history h1 st) (push_present cfg _ _ _))
           as [(evs & Hlog & Hevs & Hhist) | (evs & a & Hlog & Hevs & Hsend)].
    + intros sent (a & Hin & _).
      rewrite (new_events_app st _ evs) in Hin by done.
      rewrite Forall_forall in Hevs. by destruct (Hevs _ Hin msg a).
    + intros sent (a' & Hin & Hsend').
      rewrite (new_events_app st _ (evs ++ [EAnswer msg a])) in Hin by done.
      apply elem_of_app in Hin as [Hin|Hin].
      * rewrite Forall_forall in Hevs. by destruct (Hevs _ Hin msg a').
      * apply list_elem_of_singleton in Hin. injection Hin as ->.
        rewrite Hsend' in Hsend. done.
    + done.
    + intros Hnone.
      destruct (send_answer w msg a) as [sent|e] eqn:Hsend'; [|done].
      exfalso. apply (Hnone sent). exists a. split; [|done].
      rewrite (new_events_app st _ (evs ++ [EAnswer msg a])) by done.
      apply elem_of_app. right. by apply list_elem_of_singleton.
Qed.

Lemma handle_group_appends_witness :
  let w := Sample.world (Ok (Sample.ok_response (Sample.completion (py "Sunny.")))) in
  let msg := Sample.text_message Sample.alice (py "@bot what's the weather?") in
  let run := @handle_group Sample.runtime Sample.cfg w msg Sample.ready in
  run.2 = Ok tt
  ∧ buffer 100 (HISTORY run.1)
    = [ (false, py "> Alice (@alice): @bot what's the weather?");
        (true, py "> Grok (you): Sunny.") ].
Proof.
  intros w msg run.
  destruct (@handle_group_appends Sample.runtime Sample.cfg w msg Sample.ready
              (py "@bot")) as (Hanswered & _ & _).
  - vm_compute. discriminate.
  - reflexivity.
  - destruct (Hanswered (Sample.text_message Sample.bot_user (py "Sunny.")))
      as [Hok Hhist].
    + exists (JStr (py "Sunny.")). split; [|reflexivity].
      apply list_elem_of_In. vm_compute. tauto.
    + split; [exact Hok|]. fold run in Hhist. rewrite Hhist.
      vm_compute. reflexivity.
Defined.

(** The usage hint for a mention in the stored letter case.  When the
    lower-cased text contains the handle and nothing is left of the text
    once the handle literal is removed and the rest trimmed, the only call
    the run makes is the usage-hint reply: the completion service is not
    called, and the history holds the inbound line and nothing for the
    hint. *)
Lemma handle_group_empty_prompt `{!Runtime} (cfg : Config) (w : World)
    (msg : Message) (st : State) (name t r : pystr) :
  let handle := py "@" ++ name in
  0 ≤ MESSAGE_HISTORY_LIMIT cfg →
  BOT_USERNAME st = Some handle →
  text msg = Some t →
  (∃ pre post, str_lower t = pre ++ handle ++ post) →
  removed handle t r → trimmed r [] →
  let run := handle_group cfg w msg st in
  let is_bot := eq_bot_id (user_id (from_user msg)) (BOT_ID st) in
  new_events st run.1 =
    [EReply msg (py "Add a prompt after mentioning me, e.g. " ++ handle
                 ++ py " what" ++ [RSQUO] ++ py "s up?")]
  ∧ filter (fun ev => is_post ev = true) (new_events st run.1) = []
  ∧ HISTORY run.1 =
      push (MESSAGE_HISTORY_LIMIT cfg) (chat_id msg)
        (is_bot,
         format_line (MAX_SNIPPET_LEN cfg) (BOT_DISPLAY st) msg is_bot)
        (HISTORY st).
Proof.
  intros handle Hlimit Hu Htext Hocc Hr Hp run is_bot. subst run.
  assert (handle ≠ []) as Hne by done. clearbody handle.
  rewrite (handle_group_run cfg w Hlimit msg st handle Hu), Htext.
  rewrite (detect_removed_trimmed handle t r [] Hne Hocc Hr Hp). cbv zeta.
  rewrite (new_events_app st _ [EReply msg (usage_hint handle)]) by done.
  done.
Qed.

Lemma handle_group_empty_prompt_witness :
  let w := Sample.world (Ok (Sample.ok_response (Sample.completion (py "Sunny.")))) in
  let msg := Sample.text_message Sample.alice (py " @bot ") in
  let run := @handle_group Sample.runtime Sample.cfg w msg Sample.ready in
  filter (fun ev => is_post ev = true) (new_events Sample.ready run.1) = []
  ∧ buffer 100 (HISTORY run.1) = [ (false, py "> Alice (@alice):  @bot ") ].
Proof.
  intros w msg run.
  destruct (@handle_group_empty_prompt Sample.runtime Sample.cfg w msg
              Sample.ready (py "bot") (py " @bot ") (py "  "))
    as (_ & Hposts & Hhist).
  - vm_compute. discriminate.
  - reflexivity.
  - reflexivity.
  - exists (py " "), (py " "). reflexivity.
  - apply (removed_first (py "@bot") (py " ") (py " ") (py " "));
      [reflexivity|]. apply removed_none. reflexivity.
  - exists (py "  "), []. repeat split; try done.
    repeat constructor.
  - split; [exact Hposts|]. fold run in Hhist. rewrite Hhist.
    vm_compute. reflexivity.
Defined.

(** C10.  A message without text whose caption is not empty (for instance
    one that mentions the bot) is recorded in the history, rendered from
    its caption, and the run ends there: no call is made, so nothing is
    sent to the chat or to the completion service. *)
Theorem handle_group_caption_only `{!Runtime} (cfg : Config) (w : World)
    (msg : Message) (st : State) (name c : pystr) :
  0 ≤ MESSAGE_HISTORY_LIMIT cfg →
  BOT_USERNAME st = Some (py "@" ++ name) →
  text msg = None →
  caption msg = Some c → c ≠ [] →
  let run := handle_group cfg w msg st in
  let is_bot := eq_bot_id (user_id (from_user msg)) (BOT_ID st) in
  run.2 = Ok tt
  ∧ new_events st run.1 = []
  ∧ message_text msg = c
  ∧ HISTORY run.1 =
      push (MESSAGE_HISTORY_LIMIT cfg) (chat_id msg)
        (is_bot,
         author_label (BOT_DISPLAY st) msg is_bot
         ++ snippet (MAX_SNIPPET_LEN cfg) msg)
        (HISTORY st).
Proof.
  intros Hlimit Hu Htext Hcap Hc run is_bot. subst run.
  rewrite (handle_group_run cfg w Hlimit msg st _ Hu).
  assert (detect (py "@" ++ name) (text msg) = NotAddressed) as ->.
  { unfold detect. rewrite Htext. simpl. by rewrite str_lower_nil. }
  cbv zeta. rewrite (new_events_app st _ []) by by rewrite app_nil_r.
  repeat split.
  unfold message_text. rewrite Htext, Hcap. by destruct c.
Qed.

Lemma handle_group_caption_only_witness :
  let w := Sample.world (Ok (Sample.ok_response (Sample.completion (py "Sunny.")))) in
  let msg := {| chat_id := 100; from_user := Sample.alice; text := None;
                caption := Some (py "@bot what is this?");
                content_type := py "photo"; reply_to_message := None |} in
  let run := @handle_group Sample.runtime Sample.cfg w msg Sample.ready in
  new_events Sample.ready run.1 = []
  ∧ buffer 100 (HISTORY run.1)
    = [ (false, py "> Alice (@alice): @bot what is this?") ].
Proof.
  intros w msg run.
  destruct (@handle_group_caption_only Sample.runtime Sample.cfg w msg
              Sample.ready (py "bot") (py "@bot what is this?"))
    as (_ & Hevs & _ & Hhist).
  - vm_compute. discriminate.
  - reflexivity.
  - reflexivity.
  - reflexivity.
  - discriminate.
  - split; [exact Hevs|]. fold run in Hhist. rewrite Hhist.
    vm_compute. reflexivity.
Defined.

(** ** The identity stays resolved

    [main] resolves the identity before polling starts, and no step of a
    handler run unsets it: every handler run starts with [BOT_USERNAME]
    set. *)

Section Identity.

Context `{!Runtime} (cfg : Config) (w : World).

Lemma keeps_ret {A} (a : A) : keeps (mret a).
Proof. by intros st u. Qed.

Lemma keeps_lift {A} (r : result A) : keeps (lift r).
Proof. by intros st u. Qed.

Lemma keeps_raise {A} (e : exn) : keeps (@raise A e).
Proof. by intros st u. Qed.

Lemma keeps_get : keeps get_state.
Proof. by intros st u. Qed.

Lemma keeps_log ev : keeps (log ev).
Proof. by intros st u. Qed.

Lemma keeps_on_history {A} (f : gmap Z (deque entry) → result (A * _)) :
  keeps (on_history f).
Proof. intros st u Hu. unfold on_history. by destruct (f _) as [[a h]|e]. Qed.

Lemma keeps_bind {A B} (m : M A) (f : A → M B) :
  keeps m → (∀ a, keeps (f a)) → keeps (m ≫= f).
Proof.
  intros Hm Hf st u Hu. unfold mbind, M_bind.
  specialize (Hm st u Hu). destruct (m st) as [st' [a|e]]; [|done].
  by apply Hf.
Qed.

Lemma keeps_fmap {A B} (g : A → B) (m : M A) : keeps m → keeps (g <$> m).
Proof. intros Hm. apply keeps_bind; [done|]. intros a. apply keeps_ret. Qed.

Lemma keeps_try {A} (body : M A) matching handler :
  keeps body → (∀ e, keeps (handler e)) → keeps (try_except body matching handler).
Proof.
  intros Hbody Hhandler st u Hu. unfold try_except.
  specialize (Hbody st u Hu). destruct (body st) as [st' [a|e]]; [done|].
  destruct (matching e); [by apply Hhandler | done].
Qed.

Create HintDb keeps.
#[local] Hint Resolve keeps_ret keeps_lift keeps_raise keeps_get keeps_log
  keeps_on_history keeps_fmap : keeps.

Ltac keeps_step :=
  first [ apply keeps_bind; [|intros ?] | apply keeps_try; [|intros ?]
        | solve [auto with keeps] ].

Lemma keeps_ensure_identity : keeps (ensure_identity w).
Proof.
  intros st u Hu. unfold ensure_identity, mbind, M_bind, get_state.
  by rewrite Hu.
Qed.

Lemma keeps_format_line_m msg b : keeps (format_line_m cfg msg b).
Proof. unfold format_line_m. repeat keeps_step. Qed.

Lemma keeps_record_line chat msg b : keeps (record_line cfg chat msg b).
Proof.
  unfold record_line. apply keeps_bind; [apply keeps_format_line_m|].
  intros line. apply keeps_on_history.
Qed.

Lemma keeps_ask_grok chat prompt reply : keeps (ask_grok cfg w chat prompt reply).
Proof.
  unfold ask_grok. case_match; [apply keeps_ret|].
  repeat keeps_step. case_match; auto with keeps.
Qed.

Lemma keeps_answer_query msg bot_id p : keeps (answer_query cfg w msg bot_id p).
Proof.
  unfold answer_query. apply keeps_bind.
  { case_match; [apply keeps_fmap, keeps_format_line_m | apply keeps_ret]. }
  intros reply. repeat keeps_step; auto using keeps_ask_grok, keeps_record_line.
Qed.

Lemma keeps_handle_group msg : keeps (handle_group cfg w msg).
Proof.
  unfold handle_group. apply keeps_bind; [apply keeps_ensure_identity|].
  intros _. apply keeps_bind; [apply keeps_get|]. intros st0.
  apply keeps_bind; [apply keeps_record_line|]. intros _.
  apply keeps_bind; [case_match; auto with keeps|]. intros u0.
  case_match; [apply keeps_ret | repeat keeps_step | apply keeps_answer_query].
Qed.

Lemma keeps_dispatch msgs : keeps (dispatch cfg w msgs).
Proof.
  induction msgs as [|msg msgs IH]; simpl; [apply keeps_ret|].
  apply keeps_bind; [|done].
  apply keeps_try; [apply keeps_handle_group | intros e; apply keeps_ret].
Qed.

(** After the first step of [main] the identity is resolved, with a handle
    that starts with "@", or [main] has raised. *)
Lemma main_resolves_identity st st' :
  ensure_identity w st = (st', Ok tt) → is_Some (BOT_USERNAME st').
Proof.
  intros Hrun. apply ensure_identity_resolves in Hrun
    as [(u & Hu & ->) | (me & name & _ & _ & _ & Hu & _)]; eauto.
Qed.

End Identity.

(** * Further properties of the module *)

(** ** Startup (lines 29-46) *)

(** X1.  A configuration is obtained only when all four variables are set,
    both credentials are non-empty, the token is accepted and both numbers
    parse; the configuration holds exactly these values. *)
Theorem startup_ok_reads_all `{!Runtime} (env : gmap string pystr)
    (cfg : Config) :
  startup env = Ok cfg →
  ∃ tok key m l,
    env !! "BOT_TOKEN"%string = Some tok ∧ tok ≠ []
    ∧ env !! "XAI_API_KEY"%string = Some key ∧ key ≠ []
    ∧ env !! "MAX_SNIPPET_LEN"%string = Some m
    ∧ env !! "MESSAGE_LIMIT"%string = Some l
    ∧ validate_token tok = Ok tt
    ∧ int_of_str m = Ok (MAX_SNIPPET_LEN cfg)
    ∧ int_of_str l = Ok (MESSAGE_HISTORY_LIMIT cfg)
    ∧ BOT_TOKEN cfg = tok
    ∧ XAI_API_KEY cfg = Some key.
Proof.
  unfold startup, getenv.
  destruct (env !! "BOT_TOKEN"%string) as [[|c tok]|]; simpl; try done.
  destruct (env !! "XAI_API_KEY"%string) as [[|c' key]|]; simpl; try done.
  destruct (validate_token (c :: tok)) as [[]|e] eqn:Hvalid; simpl; [|done].
  destruct (env !! "MAX_SNIPPET_LEN"%string) as [m|]; simpl; [|done].
  destruct (int_of_str m) as [zm|e] eqn:Hm; simpl; [|done].
  destruct (env !! "MESSAGE_LIMIT"%string) as [l|]; simpl; [|done].
  destruct (int_of_str l) as [zl|e] eqn:Hl; simpl; [|done].
  intros [= <-]. exists (c :: tok), (c' :: key), m, l. simpl.
  by repeat split.
Qed.

Lemma startup_ok_reads_all_witness :
  let env : gmap string pystr :=
    {[ "BOT_TOKEN"%string := py "1:token"; "XAI_API_KEY"%string := py "key";
       "MAX_SNIPPET_LEN"%string := py "160"; "MESSAGE_LIMIT"%string := py "30" ]} in
  ∃ tok key m l,
    env !! "BOT_TOKEN"%string = Some tok ∧ tok ≠ []
    ∧ env !! "XAI_API_KEY"%string = Some key ∧ key ≠ []
    ∧ env !! "MAX_SNIPPET_LEN"%string = Some m
    ∧ env !! "MESSAGE_LIMIT"%string = Some l
    ∧ @validate_token Sample.runtime tok = Ok tt
    ∧ @int_of_str Sample.runtime m = Ok 160
    ∧ @int_of_str Sample.runtime l = Ok 30
    ∧ BOT_TOKEN Sample.cfg = tok
    ∧ XAI_API_KEY Sample.cfg = Some key.
Proof.
  intros env.
  apply (@startup_ok_reads_all Sample.runtime env Sample.cfg).
  vm_compute. reflexivity.
Defined.

(** X2.  A missing or empty credential stops the module body with a
    [RuntimeError] that names the first missing one, before the token is
    checked and before the numeric settings are read. *)
Theorem startup_missing_credential `{!Runtime} (env : gmap string pystr) :
  Str.truthy (env !! "BOT_TOKEN"%string)
  && Str.truthy (env !! "XAI_API_KEY"%string) = false →
  startup env =
  Raise (Exn RuntimeError
           (if Str.truthy (env !! "BOT_TOKEN"%string)
            then py "XAI_API_KEY missing - set it in .env"
            else py "BOT_TOKEN missing - set it in .env")).
Proof.
  unfold startup, getenv.
  destruct (Str.truthy (env !! "BOT_TOKEN"%string)); simpl; [|done].
  by intros ->.
Qed.

Lemma startup_missing_credential_witness :
  @startup Sample.runtime {[ "BOT_TOKEN"%string := py "1:token";
                              "XAI_API_KEY"%string := [] ]}
  = Raise (Exn RuntimeError (py "XAI_API_KEY missing - set it in .env")).
Proof.
  etrans.
  - apply (@startup_missing_credential Sample.runtime
             {[ "BOT_TOKEN"%string := py "1:token"; "XAI_API_KEY"%string := [] ]}).
    vm_compute. reflexivity.
  - vm_compute. reflexivity.
Defined.

(** ** Identity (lines 52-61) *)

(** X3.  Once [ensure_identity] has succeeded, a further call does not call
    Telegram and changes nothing: the identity is fetched at most once. *)
Theorem ensure_identity_once `{!Runtime} (w : World) (st st' : State) :
  ensure_identity w st = (st', Ok tt) →
  ensure_identity w st' = (st', Ok tt)
  ∧ (new_events st st' = [] ∨ new_events st st' = [EGetMe]).
Proof.
  intros Hrun. unfold ensure_identity, mbind, M_bind, get_state in *.
  destruct (BOT_USERNAME st) as [u|] eqn:Hu.
  - injection Hrun as <-. rewrite Hu. split; [done|]. left.
    apply new_events_app. by rewrite app_nil_r.
  - unfold log, lift, raise, set_identity, mret, M_ret in Hrun.
    destruct (get_me w) as [me|e]; [|done].
    destruct (username me) as [name|]; [|done].
    injection Hrun as <-. simpl. split; [done|]. right.
    by apply new_events_app.
Qed.

Lemma ensure_identity_once_witness :
  let w := Sample.world (Ok (Sample.ok_response JNull)) in
  let st' := (@ensure_identity Sample.runtime w initial_state).1 in
  @ensure_identity Sample.runtime w st' = (st', Ok tt)
  ∧ BOT_USERNAME st' = Some (py "@bot").
Proof.
  intros w st'.
  destruct (@ensure_identity_once Sample.runtime w initial_state st')
    as [Hagain _]; [reflexivity|].
  split; [exact Hagain | reflexivity].
Defined.

(** X4.  When [ensure_identity] raises (the call to Telegram fails, or the
    account has no username) the identity stays unresolved and the history
    is untouched; the one call made is [get_me]. *)
Theorem ensure_identity_failure `{!Runtime} (w : World) (st st' : State)
    (e : exn) :
  ensure_identity w st = (st', Raise e) →
  BOT_USERNAME st' = None ∧ BOT_DISPLAY st' = BOT_DISPLAY st
  ∧ BOT_ID st' = BOT_ID st ∧ HISTORY st' = HISTORY st
  ∧ LOG st' = LOG st ++ [EGetMe]
  ∧ (get_me w = Raise e
     ∨ ∃ me, get_me w = Ok me ∧ username me = None
             ∧ exn_cls e = AttributeError).
Proof.
  unfold ensure_identity, mbind, M_bind, get_state, log, lift, raise,
    set_identity, mret, M_ret.
  destruct (BOT_USERNAME st) as [u|] eqn:Hu; [done|].
  destruct (get_me w) as [me|e0] eqn:Hme; simpl.
  - destruct (username me) as [name|] eqn:Hname; [done|].
    intros [= <- <-]. simpl. repeat split; try done. right. eauto.
  - intros [= <- <-]. simpl. repeat split; try done. by left.
Qed.

Lemma ensure_identity_failure_witness :
  let w := {| get_me := Ok {| user_id := 1; first_name := py "Grok";
                              last_name := None; username := None |};
              http_post := fun _ => Raise (Exn (Httpx ConnectError) []);
              send_chat_action := fun _ _ => Ok tt;
              send_reply := fun m _ => Ok m;
              send_answer := fun m _ => Ok m |} in
  let run := @ensure_identity Sample.runtime w initial_state in
  BOT_USERNAME run.1 = None ∧ LOG run.1 = [EGetMe].
Proof.
  intros w run.
  destruct (@ensure_identity_failure Sample.runtime w initial_state run.1
              (Exn AttributeError (py "'NoneType' object has no attribute 'lower'")))
    as (Hu & _ & _ & _ & Hlog & _); [reflexivity|].
  split; [exact Hu | exact Hlog].
Defined.

(** ** Snippets (lines 90-93) *)

(** X5.  A message text of at most [MAX_SNIPPET_LEN] characters is kept
    whole, each newline replaced by one space; without newlines it is kept
    verbatim. *)
Theorem snippet_short (max_len : Z) (msg : Message) :
  Str.len (message_text msg) ≤ max_len →
  snippet max_len msg
  = (fun c => if (c =? NL)%N then SP else c) <$> message_text msg
  ∧ (NL ∉ message_text msg → snippet max_len msg = message_text msg).
Proof.
  intros Hshort. unfold snippet, Str.len in *.
  rewrite replace_newline_length.
  destruct (Z.ltb_spec max_len (Z.of_nat (length (message_text msg))));
    [lia|].
  rewrite replace_char.
  assert (∀ s : pystr,
            (fun c => if (NL =? c)%N then SP else c) <$> s
            = (fun c => if (c =? NL)%N then SP else c) <$> s) as Hsym.
  { intros s. apply list_fmap_ext. intros _ c _. by rewrite N.eqb_sym. }
  rewrite Hsym. split; [done|].
  clear. generalize (message_text msg) as s.
  induction s as [|c s IH]; [done|]. intros Hfree.
  apply not_elem_of_cons in Hfree as [Hc Hs].
  rewrite fmap_cons, (IH Hs). by destruct (N.eqb_spec c NL).
Qed.

Lemma snippet_short_witness :
  snippet 160 (Sample.text_message Sample.alice ([104; 105; 10; 121; 111]%N))
  = [104; 105; 32; 121; 111]%N.
Proof.
  destruct (snippet_short 160
              (Sample.text_message Sample.alice ([104; 105; 10; 121; 111]%N)))
    as [Heq _]; [vm_compute; discriminate|].
  rewrite Heq. reflexivity.
Defined.

(** ** Completion client (lines 127-169) *)

(** X6.  On a 2xx answer whose JSON body has the expected shape, [ask_grok]
    returns the content of the first choice's message as it is, whatever
    its type; further choices and other fields play no part. *)
Theorem ask_grok_returns_content (cfg : Config) (w : World) (chat : Z)
    (prompt : pystr) (reply : option pystr) (st : State) (r : Response)
    (d f m : list (pystr * json)) (rest : list json) (v : json) :
  Str.truthy (XAI_API_KEY cfg) = true →
  0 ≤ MESSAGE_HISTORY_LIMIT cfg →
  http_post w (grok_request cfg (history_lines chat st) reply prompt) = Ok r →
  200 ≤ status_code r ≤ 299 →
  body_json r = Some (JDict d) →
  dict_get (py "choices") d = Some (JList (JDict f :: rest)) →
  dict_get (py "message") f = Some (JDict m) →
  dict_get (py "content") m = Some v →
  (ask_grok cfg w chat prompt reply st).2 = Ok v.
Proof.
  intros Hkey Hlimit Hpost Hstatus Hbody Hchoices Hmessage Hcontent.
  rewrite ask_grok_run by done. simpl.
  unfold completion_outcome. rewrite Hpost.
  unfold raise_for_status.
  destruct (Z.leb_spec 200 (status_code r)); [|lia].
  destruct (Z.leb_spec (status_code r) 299); [|lia]. simpl.
  rewrite Hbody. unfold extract_content, response_json. rewrite Hbody.
  simpl. rewrite Hchoices. simpl. rewrite Hmessage. simpl.
  by rewrite Hcontent.
Qed.

Lemma ask_grok_returns_content_witness :
  let body :=
    JDict [(py "id", JStr (py "c1"));
           (py "choices",
            JList [JDict [(py "index", JInt 0);
                          (py "message",
                           JDict [(py "role", JStr (py "assistant"));
                                  (py "content", JNull)])];
                   JDict []])] in
  (ask_grok Sample.cfg (Sample.world (Ok (Sample.ok_response body))) 100
     (py "hi") None Sample.ready).2 = Ok JNull.
Proof.
  intros body.
  eapply (ask_grok_returns_content Sample.cfg _ 100 (py "hi") None
            Sample.ready (Sample.ok_response body));
    try reflexivity; vm_compute; (discriminate || (split; discriminate)).
Defined.

(** X7.  On a 2xx answer whose body is not JSON, [ask_grok] returns the
    marker "<Grok response malformed – expected JSON>" and raises
    nothing. *)
Theorem ask_grok_not_json (cfg : Config) (w : World) (chat : Z)
    (prompt : pystr) (reply : option pystr) (st : State) (r : Response) :
  Str.truthy (XAI_API_KEY cfg) = true →
  0 ≤ MESSAGE_HISTORY_LIMIT cfg →
  http_post w (grok_request cfg (history_lines chat st) reply prompt) = Ok r →
  200 ≤ status_code r ≤ 299 →
  body_json r = None →
  (ask_grok cfg w chat prompt reply st).2
  = Ok (JStr (py "<Grok response malformed " ++ [EN_DASH]
              ++ py " expected JSON>")).
Proof.
  intros Hkey Hlimit Hpost Hstatus Hbody.
  rewrite ask_grok_run by done. simpl.
  unfold completion_outcome. rewrite Hpost.
  unfold raise_for_status.
  destruct (Z.leb_spec 200 (status_code r)); [|lia].
  destruct (Z.leb_spec (status_code r) 299); [|lia]. simpl.
  by rewrite Hbody.
Qed.

Lemma ask_grok_not_json_witness :
  let r := {| status_code := 200; status_message := []; body_json := None |} in
  (ask_grok Sample.cfg (Sample.world (Ok r)) 100 (py "hi") None Sample.ready).2
  = Ok (JStr (py "<Grok response malformed " ++ [EN_DASH]
              ++ py " expected JSON>")).
Proof.
  intros r.
  apply (ask_grok_not_json Sample.cfg (Sample.world (Ok r)) 100 (py "hi") None
           Sample.ready r); try reflexivity; vm_compute;
    (discriminate || (split; discriminate)).
Defined.

Lemma buffer_insert_empty (c chat : Z) (n : nat) (h : gmap Z (deque entry)) :
  h !! chat = None → buffer c (<[chat := Deque n []]> h) = buffer c h.
Proof.
  intros Hd. unfold buffer. destruct (decide (chat = c)) as [->|Hne].
  - by rewrite lookup_insert_eq, Hd.
  - by rewrite lookup_insert_ne.
Qed.

Lemma ask_grok_state_frame (cfg : Config) (w : World) (chat : Z)
    (prompt : pystr) (reply : option pystr) (st : State) (c : Z) :
  let st' := (ask_grok cfg w chat prompt reply st).1 in
  buffer c (HISTORY st') = buffer c (HISTORY st)
  ∧ BOT_USERNAME st' = BOT_USERNAME st
  ∧ BOT_DISPLAY st' = BOT_DISPLAY st
  ∧ BOT_ID st' = BOT_ID st.
Proof.
  unfold ask_grok.
  destruct (Str.truthy (XAI_API_KEY cfg)); cbn [negb]; [|done].
  unfold mbind, M_bind, on_history, history_get, deque_new, try_except, fmap,
    M_fmap, mbind, M_bind, lift, log, mret, M_ret.
  destruct (HISTORY st !! chat) as [d|] eqn:Hd;
    [|destruct (MESSAGE_HISTORY_LIMIT cfg <? 0); [done|]];
    simpl.
  all: destruct (http_post w _) as [r|e]; simpl;
    [destruct (raise_for_status r) as [[]|e]; simpl;
       [destruct (response_json r) as [v|e]; simpl;
          [destruct (extract_content r) as [x|e]; simpl
          |destruct (is_ValueError e); simpl]|]|].
  all: try destruct (is_HTTPError e); simpl.
  all: repeat split; try done.
  all: by apply buffer_insert_empty.
Qed.

(** X8.  [ask_grok] only reads the history: whatever the configuration and
    the outcome of the request, the lines held for every chat and the
    resolved identity are the same afterwards. *)
Theorem ask_grok_reads_only (cfg : Config) (w : World) (chat : Z)
    (prompt : pystr) (reply : option pystr) (st : State) (c : Z) :
  let st' := (ask_grok cfg w chat prompt reply st).1 in
  buffer c (HISTORY st') = buffer c (HISTORY st)
  ∧ BOT_USERNAME st' = BOT_USERNAME st
  ∧ BOT_DISPLAY st' = BOT_DISPLAY st
  ∧ BOT_ID st' = BOT_ID st.
Proof. apply ask_grok_state_frame. Qed.


(** ** Handler (lines 173-216) *)

Section Frames.

Context `{!Runtime} (cfg : Config) (w : World) (c : Z).

Lemma frames_ret {A} (a : A) : frames c (mret a).
Proof. by intros st. Qed.

Lemma frames_lift {A} (r : result A) : frames c (lift r).
Proof. by intros st. Qed.

Lemma frames_raise {A} (e : exn) : frames c (@raise A e).
Proof. by intros st. Qed.

Lemma frames_get : frames c get_state.
Proof. by intros st. Qed.

Lemma frames_log ev : frames c (log ev).
Proof. by intros st. Qed.

Lemma frames_bind {A B} (m : M A) (f : A → M B) :
  frames c m → (∀ a, frames c (f a)) → frames c (m ≫= f).
Proof.
  intros Hm Hf st. unfold mbind, M_bind.
  specialize (Hm st). destruct (m st) as [st' [a|e]]; [|done].
  simpl in Hm. by rewrite Hf.
Qed.

Lemma frames_fmap {A B} (g : A → B) (m : M A) :
  frames c m → frames c (g <$> m).
Proof. intros Hm. apply frames_bind; [done|]. intros a. apply frames_ret. Qed.

Lemma frames_on_history {A}
    (f : gmap Z (deque entry) → result (A * gmap Z (deque entry))) :
  (∀ h a h', f h = Ok (a, h') → buffer c h' = buffer c h) →
  frames c (on_history f).
Proof.
  intros Hf st. unfold on_history.
  destruct (f (HISTORY st)) as [[a h']|e] eqn:Hrun; [|done].
  simpl. by eapply Hf.
Qed.

Lemma frames_ensure_identity : frames c (ensure_identity w).
Proof.
  intros st. unfold ensure_identity, mbind, M_bind, get_state, log, lift,
    raise, set_identity, mret, M_ret.
  destruct (BOT_USERNAME st); [done|].
  destruct (get_me w) as [me|e]; [|done].
  by destruct (username me).
Qed.

Lemma frames_format_line_m msg b : frames c (format_line_m cfg msg b).
Proof. by intros st. Qed.

(** Appending to another chat leaves the lines of [c] alone, whether or not
    the append succeeds. *)
Lemma frames_record_line chat msg b :
  chat ≠ c → frames c (record_line cfg chat msg b).
Proof.
  intros Hne. unfold record_line.
  apply frames_bind; [apply frames_format_line_m|]. intros line.
  apply frames_on_history. intros h [] h'.
  unfold history_append, history_get, deque_new.
  destruct (h !! chat) as [d|]; simpl.
  - intros [= <-]. unfold buffer. by rewrite lookup_insert_ne.
  - case_match; simpl; [done|]. intros [= <-].
    unfold buffer. by rewrite !lookup_insert_ne.
Qed.

Lemma frames_ask_grok chat prompt reply :
  frames c (ask_grok cfg w chat prompt reply).
Proof. intros st. apply ask_grok_state_frame. Qed.

Lemma frames_answer_query msg bot_id p :
  chat_id msg ≠ c → frames c (answer_query cfg w msg bot_id p).
Proof.
  intros Hne. unfold answer_query. apply frames_bind.
  { case_match; [apply frames_fmap, frames_format_line_m | apply frames_ret]. }
  intros reply.
  apply frames_bind; [apply frames_log|]. intros _.
  apply frames_bind; [apply frames_lift|]. intros _.
  apply frames_bind; [apply frames_ask_grok|]. intros answer.
  apply frames_bind; [apply frames_log|]. intros _.
  apply frames_bind; [apply frames_lift|]. intros sent.
  by apply frames_record_line.
Qed.

Lemma frames_handle_group msg :
  chat_id msg ≠ c → frames c (handle_group cfg w msg).
Proof.
  intros Hne. unfold handle_group.
  apply frames_bind; [apply frames_ensure_identity|]. intros _.
  apply frames_bind; [apply frames_get|]. intros st0.
  apply frames_bind; [by apply frames_record_line|]. intros _.
  apply frames_bind.
  { case_match; [apply frames_ret | apply frames_raise]. }
  intros u. case_match.
  - apply frames_ret.
  - apply frames_bind; [apply frames_log|]. intros _.
    apply frames_bind; [apply frames_lift|]. intros _. apply frames_ret.
  - by apply frames_answer_query.
Qed.

End Frames.

(** X9.  A handler run touches the history of the message's chat only: the
    lines held for every other chat are the same afterwards, whatever
    happens during the run. *)
Theorem handle_group_other_chats `{!Runtime} (cfg : Config) (w : World)
    (msg : Message) (st : State) (c : Z) :
  chat_id msg ≠ c →
  buffer c (HISTORY (handle_group cfg w msg st).1) = buffer c (HISTORY st).
Proof. intros Hne. by apply frames_handle_group. Qed.

Lemma handle_group_other_chats_witness :
  let w := Sample.world (Ok (Sample.ok_response (Sample.completion (py "Sunny.")))) in
  let st := (@handle_group Sample.runtime Sample.cfg w
               (Sample.text_message Sample.alice (py "hello")) Sample.ready).1 in
  let other := {| chat_id := 200; from_user := Sample.alice;
                  text := Some (py "@bot hi"); caption := None;
                  content_type := py "text"; reply_to_message := None |} in
  buffer 100 (HISTORY (@handle_group Sample.runtime Sample.cfg w other st).1)
  = [(false, py "> Alice (@alice): hello")].
Proof.
  intros w st other.
  rewrite (@handle_group_other_chats Sample.runtime Sample.cfg w other st 100)
    by discriminate.
  vm_compute. reflexivity.
Defined.

(** X10.  With a negative [MESSAGE_LIMIT] the first message of a chat makes
    the handler raise the [ValueError] of [deque(maxlen=...)]: nothing is
    recorded and nothing is sent. *)
Theorem handle_group_negative_limit `{!Runtime} (cfg : Config) (w : World)
    (msg : Message) (st : State) (u : pystr) :
  MESSAGE_HISTORY_LIMIT cfg < 0 →
  BOT_USERNAME st = Some u →
  HISTORY st !! chat_id msg = None →
  handle_group cfg w msg st
  = (st, Raise (Exn ValueError (py "maxlen must be non-negative"))).
Proof.
  intros Hneg Hu Hnew. unfold handle_group.
  unfold mbind at 1. unfold M_bind at 1. rewrite (ensure_identity_cached w st u Hu).
  unfold mbind at 1. unfold M_bind at 1. unfold get_state at 1.
  unfold mbind at 1. unfold M_bind at 1.
  unfold record_line, format_line_m, mbind, M_bind, get_state, mret, M_ret,
    on_history, history_append, history_get, deque_new.
  rewrite Hnew. destruct (Z.ltb_spec (MESSAGE_HISTORY_LIMIT cfg) 0); [done|lia].
Qed.

Lemma handle_group_negative_limit_witness :
  let cfg := {| BOT_TOKEN := py "1:token"; XAI_API_KEY := Some (py "key");
                MAX_SNIPPET_LEN := 160; MESSAGE_HISTORY_LIMIT := -1 |} in
  let w := Sample.world (Ok (Sample.ok_response (Sample.completion (py "Sunny.")))) in
  @handle_group Sample.runtime cfg w
    (Sample.text_message Sample.alice (py "@bot hi")) Sample.ready
  = (Sample.ready, Raise (Exn ValueError (py "maxlen must be non-negative"))).
Proof.
  intros cfg w.
  apply (@handle_group_negative_limit Sample.runtime cfg w _ Sample.ready
           (py "@bot")); [vm_compute | |]; reflexivity.
Defined.

(** X11.  A prompt handed on by the detector is never empty and neither
    starts nor ends with whitespace, and it is only produced for a text
    whose lower-cased form contains the handle. *)
Theorem detect_prompt_trimmed `{!Runtime} (u : pystr) (t : option pystr)
    (p : pystr) :
  detect u t = Prompt p →
  (∃ pre post, str_lower (Str.or_else t []) = pre ++ u ++ post)
  ∧ p ≠ []
  ∧ (∀ c, head p = Some c → Str.is_space c = false)
  ∧ (∀ c, last p = Some c → Str.is_space c = false).
Proof.
  unfold detect.
  destruct (Str.contains u (str_lower (Str.or_else t []))) eqn:Hocc;
    cbn [negb]; [|done].
  apply contains_occurrence in Hocc.
  destruct (strip_trimmed (Str.replace u [] (Str.or_else t [])))
    as (lead & trail & _ & _ & _ & Hhead & Hlast).
  destruct (Str.strip _) as [|c p']; [done|].
  intros [= <-]. by repeat split.
Qed.

Lemma detect_prompt_trimmed_witness :
  let p := py "what's   up" in
  @detect Sample.runtime (py "@bot") (Some (py "  @bot what's   up  ")) = Prompt p
  ∧ p ≠ [].
Proof.
  intros p.
  assert (@detect Sample.runtime (py "@bot") (Some (py "  @bot what's   up  "))
          = Prompt p) as Hdet by reflexivity.
  split; [exact Hdet|].
  exact (proj1 (proj2 (@detect_prompt_trimmed Sample.runtime _ _ _ Hdet))).
Defined.

Section Queries.

Context `{!Runtime} (cfg : Config) (w : World).
Hypothesis Hlimit : 0 ≤ MESSAGE_HISTORY_LIMIT cfg.
Hypothesis Hkey : Str.truthy (XAI_API_KEY cfg) = true.

(** A run that reaches the completion call: what it logs and how it ends. *)
Lemma handle_group_query_run msg st u p :
  BOT_USERNAME st = Some u →
  detect u (text msg) = Prompt p →
  send_chat_action w (chat_id msg) (py "typing") = Ok tt →
  let is_bot := eq_bot_id (user_id (from_user msg)) (BOT_ID st) in
  let h1 :=
    push (MESSAGE_HISTORY_LIMIT cfg) (chat_id msg)
      (is_bot, format_line (MAX_SNIPPET_LEN cfg) (BOT_DISPLAY st) msg is_bot)
      (HISTORY st) in
  let reply :=
    (fun replied =>
       format_line (MAX_SNIPPET_LEN cfg) (BOT_DISPLAY st) replied
         (eq_bot_id (user_id (from_user replied)) (BOT_ID st)))
      <$> reply_to_message msg in
  let req := grok_request cfg (snd <$> buffer (chat_id msg) h1) reply p in
  let run := handle_group cfg w msg st in
  LOG run.1 =
    LOG st ++ [EChatAction (chat_id msg) (py "typing"); EPost req]
    ++ match completion_outcome w req with
       | Ok a => [EAnswer msg a]
       | Raise _ => []
       end
  ∧ run.2 =
      match completion_outcome w req with
      | Ok a => send_answer w msg a ≫= fun _ => Ok tt
      | Raise e => Raise e
      end.
Proof.
  intros Hu Hdet Htyping is_bot h1 reply req run. subst run.
  rewrite (handle_group_run cfg w Hlimit msg st u Hu), Hdet. cbv zeta.
  fold is_bot. fold h1.
  rewrite answer_query_run by done. cbv zeta. rewrite Htyping.
  rewrite ask_grok_run by done. cbv zeta.
  change (history_lines (chat_id msg) _) with (snd <$> buffer (chat_id msg) h1).
  change (BOT_DISPLAY (set_history h1 st)) with (BOT_DISPLAY st).
  fold reply. fold req.
  destruct (completion_outcome w req) as [a|e]; simpl.
  - destruct (send_answer w msg a) as [sent|e]; simpl;
      (split; [by rewrite <- !app_assoc | done]).
  - split; [by rewrite <- !app_assoc | done].
Qed.

Lemma last_buffer_push chat e h :
  (∀ d, h !! chat = Some d → (1 ≤ maxlen d)%nat) →
  1 ≤ MESSAGE_HISTORY_LIMIT cfg →
  last (buffer chat (push (MESSAGE_HISTORY_LIMIT cfg) chat e h)) = Some e.
Proof.
  intros Hd Hone. unfold buffer, push. rewrite lookup_insert_eq.
  unfold deque_append.
  assert (1 ≤ maxlen (default (Deque (Z.to_nat (MESSAGE_HISTORY_LIMIT cfg)) [])
                        (h !! chat)))%nat as Hmax.
  { destruct (h !! chat) as [d|]; simpl; [by apply Hd | lia]. }
  destruct (default _ (h !! chat)) as [n l]. simpl in *.
  destruct (Nat.ltb_spec n (length (l ++ [e]))) as [Hlt|Hge].
  - destruct l as [|x l]; [simpl in Hlt; lia|].
    simpl. rewrite drop_0. apply last_snoc.
  - apply last_snoc.
Qed.

End Queries.

(** X12.  When the request fails in transport or is answered with a non-2xx
    status, the handler sends the marker "<Grok API error – detail>" to the
    chat as its answer: the run makes the typing call, one POST and one
    [answer] call, in this order. *)
Theorem handle_group_transport_failure `{!Runtime} (cfg : Config) (w : World)
    (msg : Message) (st : State) (u p : pystr) (e : exn) :
  0 ≤ MESSAGE_HISTORY_LIMIT cfg →
  Str.truthy (XAI_API_KEY cfg) = true →
  BOT_USERNAME st = Some u →
  detect u (text msg) = Prompt p →
  send_chat_action w (chat_id msg) (py "typing") = Ok tt →
  let is_bot := eq_bot_id (user_id (from_user msg)) (BOT_ID st) in
  let h1 :=
    push (MESSAGE_HISTORY_LIMIT cfg) (chat_id msg)
      (is_bot, format_line (MAX_SNIPPET_LEN cfg) (BOT_DISPLAY st) msg is_bot)
      (HISTORY st) in
  let reply :=
    (fun replied =>
       format_line (MAX_SNIPPET_LEN cfg) (BOT_DISPLAY st) replied
         (eq_bot_id (user_id (from_user replied)) (BOT_ID st)))
      <$> reply_to_message msg in
  let req := grok_request cfg (snd <$> buffer (chat_id msg) h1) reply p in
  transport_failure w req e →
  new_events st (handle_group cfg w msg st).1 =
    [ EChatAction (chat_id msg) (py "typing"); EPost req;
      EAnswer msg (JStr (py "<Grok API error " ++ [EN_DASH] ++ py " "
                         ++ exn_str e ++ py ">")) ].
Proof.
  intros Hlimit Hkey Hu Hdet Htyping is_bot h1 reply req Hfail.
  destruct (handle_group_query_run cfg w Hlimit Hkey msg st u p Hu Hdet Htyping)
    as [Hlog _].
  fold is_bot h1 reply req in Hlog.
  apply new_events_app. rewrite Hlog. f_equal.
  assert (completion_outcome w req = Ok (JStr (api_error e))) as ->; [|done].
  unfold completion_outcome.
  destruct Hfail as [k detail Hpost Hk | r Hpost Hstatus]; rewrite Hpost;
    [done|].
  unfold raise_for_status.
  destruct (Z.leb_spec 200 (status_code r));
    destruct (Z.leb_spec (status_code r) 299); simpl; try done; lia.
Qed.

Lemma handle_group_transport_failure_witness :
  let w := Sample.world (Raise (Exn (Httpx ReadTimeout) (py "timed out"))) in
  let msg := Sample.text_message Sample.alice (py "@bot hi") in
  let run := @handle_group Sample.runtime Sample.cfg w msg Sample.ready in
  (∃ req, new_events Sample.ready run.1 =
     [ EChatAction 100 (py "typing"); EPost req;
       EAnswer msg (JStr (py "<Grok API error " ++ [EN_DASH] ++ py " timed out>")) ])
  ∧ snd <$> buffer 100 (HISTORY run.1)
    = [ py "> Alice (@alice): @bot hi";
        py "> Grok (you): <Grok API error " ++ [EN_DASH] ++ py " timed out>" ].
Proof.
  intros w msg run. split; [|vm_compute; reflexivity].
  eexists.
  apply (@handle_group_transport_failure Sample.runtime Sample.cfg w msg
           Sample.ready (py "@bot") (py "hi")
           (Exn (Httpx ReadTimeout) (py "timed out"))); try reflexivity.
  - vm_compute. discriminate.
  - by apply request_failed.
Defined.

Section Calls.

Context `{!Runtime} (cfg : Config) (w : World).
Hypothesis Hlimit : 0 ≤ MESSAGE_HISTORY_LIMIT cfg.

(** The calls of lines 205-216, in order. *)
Lemma answer_query_calls msg bot_id p st1 :
  is_Some (HISTORY st1 !! chat_id msg) →
  let typing := EChatAction (chat_id msg) (py "typing") in
  ∃ posts answers,
    LOG (answer_query cfg w msg bot_id p st1).1
    = LOG st1 ++ [typing] ++ posts ++ answers
    ∧ (posts = [] ∨ ∃ req, posts = [EPost req])
    ∧ (answers = [] ∨ ∃ a, answers = [EAnswer msg a]).
Proof.
  intros Hpresent typing. rewrite answer_query_run by done. cbv zeta.
  fold typing.
  set (reply := _ <$> reply_to_message msg).
  destruct (send_chat_action w (chat_id msg) (py "typing")) as [[]|e].
  2:{ exists [], []. split; [done|]. split; by left. }
  pose proof (ask_grok_state cfg w (chat_id msg) p reply (add_log typing st1)
                Hpresent) as Hst.
  destruct (ask_grok cfg w (chat_id msg) p reply (add_log typing st1))
    as [st3 r]. simpl in Hst.
  assert (∃ posts, LOG st3 = LOG st1 ++ [typing] ++ posts
                   ∧ (posts = [] ∨ ∃ req, posts = [EPost req]))
    as (posts & Hlog & Hposts).
  { destruct Hst as [->|[req ->]].
    - exists []. split; [done | by left].
    - exists [EPost req]. split; [simpl; by rewrite <- app_assoc | eauto]. }
  destruct r as [a|e].
  - exists posts, [EAnswer msg a]. split; [|split; [done | eauto]].
    destruct (send_answer w msg a) as [sent|e]; simpl;
      rewrite Hlog; by rewrite <- !app_assoc.
  - exists posts, []. split; [|split; [done | by left]].
    simpl. by rewrite Hlog, app_nil_r.
Qed.

End Calls.

(** X14.  The calls of one handler run (identity resolved): none, or the
    usage-hint reply alone, or the typing action followed by at most one
    POST and then at most one answer.  A run never calls [get_me], never
    posts twice and never sends two messages. *)
Theorem handle_group_calls `{!Runtime} (cfg : Config) (w : World)
    (msg : Message) (st : State) (u : pystr) :
  0 ≤ MESSAGE_HISTORY_LIMIT cfg →
  BOT_USERNAME st = Some u →
  let evs := new_events st (handle_group cfg w msg st).1 in
  evs = []
  ∨ evs = [EReply msg (usage_hint u)]
  ∨ ∃ posts answers,
      evs = [EChatAction (chat_id msg) (py "typing")] ++ posts ++ answers
      ∧ (posts = [] ∨ ∃ req, posts = [EPost req])
      ∧ (answers = [] ∨ ∃ a, answers = [EAnswer msg a]).
Proof.
  intros Hlimit Hu evs. subst evs.
  rewrite (handle_group_run cfg w Hlimit msg st u Hu). cbv zeta.
  destruct (detect u (text msg)) as [| |p].
  - left. apply new_events_app. by rewrite app_nil_r.
  - right. left. by apply new_events_app.
  - right. right.
    destruct (answer_query_calls cfg w Hlimit msg (BOT_ID st) p
                (set_history
                   (push (MESSAGE_HISTORY_LIMIT cfg) (chat_id msg)
                      (eq_bot_id (user_id (from_user msg)) (BOT_ID st),
                       format_line (MAX_SNIPPET_LEN cfg) (BOT_DISPLAY st) msg
                         (eq_bot_id (user_id (from_user msg)) (BOT_ID st)))
                      (HISTORY st)) st)
                (push_present cfg _ _ _))
      as (posts & answers & Hlog & Hposts & Hanswers).
    exists posts, answers. split; [|done]. by apply new_events_app.
Qed.

Lemma handle_group_calls_witness :
  let w := Sample.world (Ok (Sample.ok_response (Sample.completion (py "Sunny.")))) in
  let msg := Sample.text_message Sample.alice (py "@bot hi") in
  ∃ posts answers,
    new_events Sample.ready
      (@handle_group Sample.runtime Sample.cfg w msg Sample.ready).1
    = [EChatAction 100 (py "typing")] ++ posts ++ answers.
Proof.
  intros w msg.
  pose proof (@handle_group_calls Sample.runtime Sample.cfg w msg Sample.ready
                (py "@bot")) as Hcalls.
  destruct Hcalls as [Hevs | [Hevs | (posts & answers & Hevs & _)]].
  - vm_compute. discriminate.
  - reflexivity.
  - vm_compute in Hevs. discriminate.
  - vm_compute in Hevs. discriminate.
  - exists posts, answers. exact Hevs.
Defined.

(** X15.  A message with neither text nor caption (an empty string counts
    as absent) is recorded under the placeholder "[<content type> message]"
    and is never taken as addressing the bot: the run makes no call. *)
Theorem handle_group_placeholder `{!Runtime} (cfg : Config) (w : World)
    (msg : Message) (st : State) (name : pystr) :
  0 ≤ MESSAGE_HISTORY_LIMIT cfg →
  BOT_USERNAME st = Some (py "@" ++ name) →
  Str.truthy (text msg) = false →
  Str.truthy (caption msg) = false →
  let run := handle_group cfg w msg st in
  let is_bot := eq_bot_id (user_id (from_user msg)) (BOT_ID st) in
  run.2 = Ok tt
  ∧ new_events st run.1 = []
  ∧ message_text msg = py "[" ++ content_type msg ++ py " message]"
  ∧ HISTORY run.1 =
      push (MESSAGE_HISTORY_LIMIT cfg) (chat_id msg)
        (is_bot,
         author_label (BOT_DISPLAY st) msg is_bot
         ++ snippet (MAX_SNIPPET_LEN cfg) msg)
        (HISTORY st).
Proof.
  intros Hlimit Hu Htext Hcap run is_bot. subst run.
  rewrite (handle_group_run cfg w Hlimit msg st _ Hu).
  assert (detect (py "@" ++ name) (text msg) = NotAddressed) as ->.
  { unfold detect.
    assert (Str.or_else (text msg) [] = []) as ->
      by by destruct (text msg) as [[|? ?]|].
    rewrite str_lower_nil. reflexivity. }
  cbv zeta. rewrite (new_events_app st _ []) by by rewrite app_nil_r.
  repeat split. unfold message_text.
  destruct (text msg) as [[|? ?]|]; destruct (caption msg) as [[|? ?]|];
    done.
Qed.

Lemma handle_group_placeholder_witness :
  let w := Sample.world (Ok (Sample.ok_response (Sample.completion (py "Sunny.")))) in
  let msg := {| chat_id := 100; from_user := Sample.alice; text := None;
                caption := Some []; content_type := py "sticker";
                reply_to_message := None |} in
  let run := @handle_group Sample.runtime Sample.cfg w msg Sample.ready in
  new_events Sample.ready run.1 = []
  ∧ buffer 100 (HISTORY run.1)
    = [ (false, py "> Alice (@alice): [sticker message]") ].
Proof.
  intros w msg run.
  destruct (@handle_group_placeholder Sample.runtime Sample.cfg w msg
              Sample.ready (py "bot")) as (_ & Hevs & _ & Hhist);
    try reflexivity.
  - vm_compute. discriminate.
  - split; [exact Hevs|]. fold run in Hhist. rewrite Hhist.
    vm_compute. reflexivity.
Defined.

(** X16.  If the identity cannot be resolved when [main] starts, [main]
    raises before any message is handled: the history is untouched and
    [get_me] is the only call made. *)
Theorem main_identity_failure `{!Runtime} (cfg : Config) (w : World)
    (msgs : list Message) (st : State) (e : exn) :
  (ensure_identity w st).2 = Raise e →
  let run := main cfg w msgs st in
  run.2 = Raise e
  ∧ HISTORY run.1 = HISTORY st
  ∧ new_events st run.1 = [EGetMe]
  ∧ BOT_USERNAME run.1 = None.
Proof.
  intros Hfail run. subst run. unfold main, mbind at 1, M_bind at 1.
  revert Hfail.
  unfold ensure_identity, mbind, M_bind, get_state, log, lift, raise,
    set_identity, mret, M_ret.
  destruct (BOT_USERNAME st) as [u0|] eqn:Hu; [done|].
  destruct (get_me w) as [me|e0]; simpl.
  - destruct (username me) as [name|]; [done|]. simpl.
    intros [= <-]. repeat split; try done. by apply new_events_app.
  - intros [= <-]. repeat split; try done. by apply new_events_app.
Qed.

Lemma main_identity_failure_witness :
  let w := {| get_me := Raise (Exn (OtherError (py "TelegramNetworkError")) []);
              http_post := fun _ => Raise (Exn (Httpx ConnectError) []);
              send_chat_action := fun _ _ => Ok tt;
              send_reply := fun m _ => Ok m;
              send_answer := fun m _ => Ok m |} in
  let run := @main Sample.runtime Sample.cfg w
               [Sample.text_message Sample.alice (py "@bot hi")] initial_state in
  HISTORY run.1 = ∅ ∧ new_events initial_state run.1 = [EGetMe].
Proof.
  intros w run.
  destruct (@main_identity_failure Sample.runtime Sample.cfg w
              [Sample.text_message Sample.alice (py "@bot hi")] initial_state
              (Exn (OtherError (py "TelegramNetworkError")) []))
    as (_ & Hhist & Hevs & _); [reflexivity|].
  split; [exact Hhist | exact Hevs].
Defined.

Lemma completion_outcome_content (w : World) (req : Request) (r : Response)
    (d f m : list (pystr * json)) (rest : list json) (v : json) :
  http_post w req = Ok r →
  200 ≤ status_code r ≤ 299 →
  body_json r = Some (JDict d) →
  dict_get (py "choices") d = Some (JList (JDict f :: rest)) →
  dict_get (py "message") f = Some (JDict m) →
  dict_get (py "content") m = Some v →
  completion_outcome w req = Ok v.
Proof.
  intros Hpost Hstatus Hbody Hchoices Hmessage Hcontent.
  unfold completion_outcome. rewrite Hpost. unfold raise_for_status.
  destruct (Z.leb_spec 200 (status_code r)); [|lia].
  destruct (Z.leb_spec (status_code r) 299); [|lia]. simpl.
  rewrite Hbody. unfold extract_content, response_json. rewrite Hbody.
  simpl. rewrite Hchoices. simpl. rewrite Hmessage. simpl.
  by rewrite Hcontent.
Qed.

(** X17.  For a query the endpoint answers in the expected shape, the
    content of the first choice is what the handler sends to the chat,
    unchanged, after the typing action and the one POST; when Telegram
    returns the sent message the run ends normally. *)
Theorem handle_group_sends_content `{!Runtime} (cfg : Config) (w : World)
    (msg : Message) (st : State) (u p : pystr) (r : Response)
    (d f m : list (pystr * json)) (rest : list json) (v : json)
    (sent : Message) :
  0 ≤ MESSAGE_HISTORY_LIMIT cfg →
  Str.truthy (XAI_API_KEY cfg) = true →
  BOT_USERNAME st = Some u →
  detect u (text msg) = Prompt p →
  send_chat_action w (chat_id msg) (py "typing") = Ok tt →
  let is_bot := eq_bot_id (user_id (from_user msg)) (BOT_ID st) in
  let h1 :=
    push (MESSAGE_HISTORY_LIMIT cfg) (chat_id msg)
      (is_bot, format_line (MAX_SNIPPET_LEN cfg) (BOT_DISPLAY st) msg is_bot)
      (HISTORY st) in
  let reply :=
    (fun replied =>
       format_line (MAX_SNIPPET_LEN cfg) (BOT_DISPLAY st) replied
         (eq_bot_id (user_id (from_user replied)) (BOT_ID st)))
      <$> reply_to_message msg in
  let req := grok_request cfg (snd <$> buffer (chat_id msg) h1) reply p in
  http_post w req = Ok r →
  200 ≤ status_code r ≤ 299 →
  body_json r = Some (JDict d) →
  dict_get (py "choices") d = Some (JList (JDict f :: rest)) →
  dict_get (py "message") f = Some (JDict m) →
  dict_get (py "content") m = Some v →
  send_answer w msg v = Ok sent →
  let run := handle_group cfg w msg st in
  new_events st run.1
  = [EChatAction (chat_id msg) (py "typing"); EPost req; EAnswer msg v]
  ∧ run.2 = Ok tt.
Proof.
  intros Hlimit Hkey Hu Hdet Htyping is_bot h1 reply req Hpost Hstatus Hbody
    Hchoices Hmessage Hcontent Hsent run. subst run.
  destruct (handle_group_query_run cfg w Hlimit Hkey msg st u p Hu Hdet Htyping)
    as [Hlog Hres].
  fold is_bot h1 reply req in Hlog, Hres.
  rewrite (completion_outcome_content w req r d f m rest v) in Hlog, Hres
    by done.
  split.
  - by apply new_events_app.
  - rewrite Hres, Hsent. reflexivity.
Qed.

Lemma handle_group_sends_content_witness :
  let w := Sample.world (Ok (Sample.ok_response (Sample.completion (py "Sunny.")))) in
  let msg := Sample.text_message Sample.alice (py "@bot weather?") in
  let run := @handle_group Sample.runtime Sample.cfg w msg Sample.ready in
  (∃ req, new_events Sample.ready run.1
          = [EChatAction 100 (py "typing"); EPost req;
             EAnswer msg (JStr (py "Sunny."))])
  ∧ run.2 = Ok tt.
Proof.
  intros w msg run.
  destruct (@handle_group_sends_content Sample.runtime Sample.cfg w msg
              Sample.ready (py "@bot") (py "weather?")
              (Sample.ok_response (Sample.completion (py "Sunny.")))
              [(py "choices",
                JList [JDict [(py "message",
                               JDict [(py "role", JStr (py "assistant"));
                                      (py "content", JStr (py "Sunny."))])]])]
              [(py "message",
                JDict [(py "role", JStr (py "assistant"));
                       (py "content", JStr (py "Sunny."))])]
              [(py "role", JStr (py "assistant"));
               (py "content", JStr (py "Sunny."))]
              [] (JStr (py "Sunny."))
              (Sample.text_message Sample.bot_user (py "Sunny.")))
    as [Hevs Hok]; try reflexivity.
  - vm_compute. discriminate.
  - vm_compute. split; discriminate.
  - split; [eexists; exact Hevs | exact Hok].
Defined.

(** X18.  A handler run never changes a resolved handle: whatever the run
    does and however it ends, [BOT_USERNAME] is the same afterwards. *)
Theorem handle_group_keeps_handle `{!Runtime} (cfg : Config) (w : World)
    (msg : Message) (st : State) (u : pystr) :
  BOT_USERNAME st = Some u →
  BOT_USERNAME (handle_group cfg w msg st).1 = Some u.
Proof. apply keeps_handle_group. Qed.

Lemma handle_group_keeps_handle_witness :
  let w := Sample.world (Raise (Exn (Httpx ConnectError) (py "refused"))) in
  BOT_USERNAME
    (@handle_group Sample.runtime Sample.cfg w
       (Sample.text_message Sample.alice (py "@bot hi")) Sample.ready).1
  = Some (py "@bot").
Proof.
  intros w.
  apply (@handle_group_keeps_handle Sample.runtime Sample.cfg w _ Sample.ready).
  reflexivity.
Defined.

(** X19.  The handler resolves the identity itself when it is not yet
    known: if that succeeds, the run is the run from the resolved state,
    with the one [get_me] call in front. *)
Theorem handle_group_resolves_first `{!Runtime} (cfg : Config) (w : World)
    (msg : Message) (st : State) :
  (ensure_identity w st).2 = Ok tt →
  handle_group cfg w msg st
  = handle_group cfg w msg (ensure_identity w st).1
  ∧ is_Some (BOT_USERNAME (ensure_identity w st).1).
Proof.
  intros Hok.
  destruct (ensure_identity w st) as [st' [[]|e]] eqn:Hrun; [|done].
  simpl. split; [|by eapply main_resolves_identity].
  assert (ensure_identity w st' = (st', Ok tt)) as Hagain.
  { destruct (ensure_identity_resolves w st st' Hrun)
      as [(u & Hu & ->) | (me & name & _ & _ & _ & Hu & _)]; [done|].
    by eapply ensure_identity_cached. }
  unfold handle_group.
  unfold mbind at 1. unfold M_bind at 1. rewrite Hrun.
  symmetry. unfold mbind at 1. unfold M_bind at 1. by rewrite Hagain.
Qed.

Lemma handle_group_resolves_first_witness :
  let w := Sample.world (Ok (Sample.ok_response (Sample.completion (py "Sunny.")))) in
  let msg := Sample.text_message Sample.alice (py "@BOT hi") in
  @handle_group Sample.runtime Sample.cfg w msg initial_state
  = @handle_group Sample.runtime Sample.cfg w msg
      (@ensure_identity Sample.runtime w initial_state).1.
Proof.
  intros w msg.
  apply (@handle_group_resolves_first Sample.runtime Sample.cfg w msg
           initial_state).
  reflexivity.
Defined.

(** ** A mention written in another letter case *)

(** C9 (the code departs from it).  This is the defect of C2 seen from the
    handler.  When the handle is written in the text in another letter case
    only (in particular when the text is nothing but the handle, as in
    "@Bot"), the case-sensitive [replace] of line 200 removes nothing, so
    the prompt is the whole text and not empty: the run sends no usage
    hint; it makes the typing call and posts to the completion service. *)
Theorem handle_group_other_case_no_hint `{!Runtime} (cfg : Config)
    (w : World) (msg : Message) (st : State) (name t p : pystr) :
  let handle := py "@" ++ name in
  0 ≤ MESSAGE_HISTORY_LIMIT cfg →
  Str.truthy (XAI_API_KEY cfg) = true →
  BOT_USERNAME st = Some handle →
  text msg = Some t →
  (∃ pre post, str_lower t = pre ++ handle ++ post) →
  (¬ ∃ pre post, t = pre ++ handle ++ post) →
  trimmed t p → p ≠ [] →
  send_chat_action w (chat_id msg) (py "typing") = Ok tt →
  let evs := new_events st (handle_group cfg w msg st).1 in
  detect handle (text msg) = Prompt p
  ∧ (∃ req rest,
       evs = [EChatAction (chat_id msg) (py "typing"); EPost req] ++ rest)
  ∧ (∀ body, EReply msg body ∉ evs).
Proof.
  intros handle Hlimit Hkey Hu Htext Hocc Hnone Hp Hpne Htyping evs.
  subst evs.
  assert (handle ≠ []) as Hne by done. clearbody handle.
  assert (detect handle (text msg) = Prompt p) as Hdet.
  { rewrite Htext.
    rewrite (detect_removed_trimmed handle t t p Hne Hocc); [|  |done].
    - by destruct p.
    - apply removed_none. apply not_true_is_false.
      by rewrite contains_occurrence. }
  split; [done|].
  destruct (handle_group_query_run cfg w Hlimit Hkey msg st handle p Hu Hdet
              Htyping) as [Hlog _]. cbv zeta in Hlog.
  rewrite (new_events_app st _ _ Hlog). split; [eauto|].
  intros body Hin.
  apply elem_of_app in Hin as [Hin|Hin]; [event_cases Hin|].
  destruct (completion_outcome w _); event_cases Hin.
Qed.

Lemma handle_group_other_case_no_hint_witness :
  let w := Sample.world (Ok (Sample.ok_response (Sample.completion (py "Hello!")))) in
  let msg := Sample.text_message Sample.alice (py "@Bot") in
  let evs := new_events Sample.ready
               (@handle_group Sample.runtime Sample.cfg w msg Sample.ready).1 in
  @detect Sample.runtime (py "@bot") (Some (py "@Bot")) = Prompt (py "@Bot")
  ∧ (∃ req rest, evs = [EChatAction 100 (py "typing"); EPost req] ++ rest)
  ∧ (∀ body, EReply msg body ∉ evs).
Proof.
  intros w msg evs.
  apply (@handle_group_other_case_no_hint Sample.runtime Sample.cfg w msg
           Sample.ready (py "bot") (py "@Bot") (py "@Bot")).
  - vm_compute. discriminate.
  - reflexivity.
  - reflexivity.
  - reflexivity.
  - exists [], []. reflexivity.
  - rewrite <- contains_occurrence. vm_compute. discriminate.
  - exists [], []. repeat split; try constructor.
    + intros c [= <-]. reflexivity.
    + intros c [= <-]. reflexivity.
  - discriminate.
  - reflexivity.
Defined.

(** ** The request when other handlers run during the typing call *)

Section InterleavedFacts.

Context `{!Runtime} (cfg : Config) (w : World) (others : State → State).
Hypothesis Hlimit : 0 ≤ MESSAGE_HISTORY_LIMIT cfg.
Hypothesis Hkey : Str.truthy (XAI_API_KEY cfg) = true.

(** With nothing running in between, the interleaved handler is the
    handler. *)
Lemma handle_group_interleaved_alone msg :
  handle_group_interleaved cfg w (fun st => st) msg = handle_group cfg w msg.
Proof. reflexivity. Qed.

(** The request of a run that reaches the completion call is built from
    the state the other handlers leave behind. *)
Lemma handle_group_interleaved_log msg st u p :
  BOT_USERNAME st = Some u →
  detect u (text msg) = Prompt p →
  send_chat_action w (chat_id msg) (py "typing") = Ok tt →
  let is_bot := eq_bot_id (user_id (from_user msg)) (BOT_ID st) in
  let h1 :=
    push (MESSAGE_HISTORY_LIMIT cfg) (chat_id msg)
      (is_bot, format_line (MAX_SNIPPET_LEN cfg) (BOT_DISPLAY st) msg is_bot)
      (HISTORY st) in
  let reply :=
    (fun replied =>
       format_line (MAX_SNIPPET_LEN cfg) (BOT_DISPLAY st) replied
         (eq_bot_id (user_id (from_user replied)) (BOT_ID st)))
      <$> reply_to_message msg in
  let st2 :=
    others (add_log (EChatAction (chat_id msg) (py "typing"))
              (set_history h1 st)) in
  let req := grok_request cfg (history_lines (chat_id msg) st2) reply p in
  ∃ rest,
    LOG (handle_group_interleaved cfg w others msg st).1
    = LOG st2 ++ [EPost req] ++ rest.
Proof.
  intros Hu Hdet Htyping is_bot h1 reply st2 req.
  unfold handle_group_interleaved.
  unfold mbind at 1. unfold M_bind at 1.
  rewrite (ensure_identity_cached w st u Hu).
  unfold mbind at 1. unfold M_bind at 1. unfold get_state at 1.
  unfold mbind at 1. unfold M_bind at 1.
  rewrite (record_line_run cfg Hlimit).
  rewrite Hu. unfold mbind at 1. unfold M_bind at 1.
  unfold mret at 1, M_ret at 1. cbv zeta. rewrite Hdet.
  fold is_bot. fold h1.
  unfold answer_query_interleaved.
  unfold mbind at 1. unfold M_bind at 1.
  assert (match reply_to_message msg with
          | Some replied =>
              Some <$> format_line_m cfg replied
                         (eq_bot_id (user_id (from_user replied)) (BOT_ID st))
          | None => mret None
          end (set_history h1 st) = (set_history h1 st, Ok reply)) as ->.
  { subst reply. by destruct (reply_to_message msg). }
  unfold mbind at 1. unfold M_bind at 1. unfold log at 1.
  unfold mbind at 1. unfold M_bind at 1. unfold await at 1.
  rewrite Htyping. fold st2.
  unfold mbind at 1. unfold M_bind at 1.
  rewrite (ask_grok_run cfg w Hkey Hlimit). cbv zeta. fold req.
  destruct (completion_outcome w req) as [a|e].
  - unfold mbind at 1. unfold M_bind at 1. unfold log at 1.
    unfold mbind at 1. unfold M_bind at 1. unfold lift at 1.
    destruct (send_answer w msg a) as [sent|e].
    + rewrite (record_line_run cfg Hlimit). simpl.
      exists [EAnswer msg a]. by rewrite <- app_assoc.
    + simpl. exists [EAnswer msg a]. by rewrite <- app_assoc.
  - simpl. by exists [].
Qed.

End InterleavedFacts.

(** X13.  The handler awaits the typing call between recording the inbound
    message and reading the history.  If what runs meanwhile adds no line
    to this chat (it may do anything to other chats) and only adds to the
    log of calls, then with [MESSAGE_LIMIT] at least one the request posted
    carries a "Chat history" block whose last line is the line of the very
    message that asks. *)
Theorem handle_group_request_has_inbound `{!Runtime} (cfg : Config)
    (w : World) (others : State → State) (msg : Message) (st : State)
    (u p : pystr) :
  1 ≤ MESSAGE_HISTORY_LIMIT cfg →
  (∀ d, HISTORY st !! chat_id msg = Some d → (1 ≤ maxlen d)%nat) →
  Str.truthy (XAI_API_KEY cfg) = true →
  BOT_USERNAME st = Some u →
  detect u (text msg) = Prompt p →
  send_chat_action w (chat_id msg) (py "typing") = Ok tt →
  (∀ s, buffer (chat_id msg) (HISTORY (others s))
        = buffer (chat_id msg) (HISTORY s)) →
  (∀ s, ∃ evs, LOG (others s) = LOG s ++ evs) →
  let is_bot := eq_bot_id (user_id (from_user msg)) (BOT_ID st) in
  ∃ lines reply,
    EPost (grok_request cfg lines reply p)
      ∈ new_events st (handle_group_interleaved cfg w others msg st).1
    ∧ last lines
      = Some (format_line (MAX_SNIPPET_LEN cfg) (BOT_DISPLAY st) msg is_bot)
    ∧ head (context_blocks lines reply p)
      = Some (py "Chat history:" ++ [NL] ++ Str.join [NL] lines).
Proof.
  intros Hone Hmax Hkey Hu Hdet Htyping Hbuf Hothers is_bot.
  assert (0 ≤ MESSAGE_HISTORY_LIMIT cfg) as Hlimit by lia.
  destruct (handle_group_interleaved_log cfg w others Hlimit Hkey msg st u p
              Hu Hdet Htyping) as [rest Hlog].
  cbv zeta in Hlog. fold is_bot in Hlog.
  set (h1 := push (MESSAGE_HISTORY_LIMIT cfg) (chat_id msg)
               (is_bot, format_line (MAX_SNIPPET_LEN cfg) (BOT_DISPLAY st) msg
                          is_bot) (HISTORY st)) in *.
  set (st1 := add_log (EChatAction (chat_id msg) (py "typing"))
                (set_history h1 st)) in *.
  assert (history_lines (chat_id msg) (others st1)
          = snd <$> buffer (chat_id msg) h1) as Hlines.
  { unfold history_lines. by rewrite Hbuf. }
  assert (last (history_lines (chat_id msg) (others st1))
          = Some (format_line (MAX_SNIPPET_LEN cfg) (BOT_DISPLAY st) msg is_bot))
    as Hlast.
  { rewrite Hlines, fmap_last. unfold h1.
    by rewrite (last_buffer_push cfg) by done. }
  destruct (Hothers st1) as [evs Hevs].
  set (reply := _ <$> reply_to_message msg) in *.
  set (req := grok_request cfg (history_lines (chat_id msg) (others st1))
                reply p) in *.
  exists (history_lines (chat_id msg) (others st1)), reply.
  split; [|split; [exact Hlast|]].
  - rewrite (new_events_app st _
               ([EChatAction (chat_id msg) (py "typing")] ++ evs
                ++ [EPost req] ++ rest))
      by (rewrite Hlog, Hevs; simpl; by rewrite <- !app_assoc).
    rewrite !elem_of_app, list_elem_of_singleton. right. right. left.
    by apply list_elem_of_singleton.
  - destruct (history_lines (chat_id msg) (others st1)) as [|l lines];
      [done|].
    unfold context_blocks.
    destruct reply as [[|? ?]|]; simpl; try case_bool_decide; done.
Qed.

Lemma handle_group_request_has_inbound_witness :
  let w := Sample.world (Ok (Sample.ok_response (Sample.completion (py "Sunny.")))) in
  let msg := Sample.text_message Sample.alice (py "@bot hi") in
  let others := fun s =>
    set_history (push 30 200 (false, py "> Bob: lol") (HISTORY s)) s in
  ∃ lines reply,
    EPost (grok_request Sample.cfg lines reply (py "hi"))
      ∈ new_events Sample.ready
          (@handle_group_interleaved Sample.runtime Sample.cfg w others msg
             Sample.ready).1
    ∧ last lines = Some (py "> Alice (@alice): @bot hi").
Proof.
  intros w msg others.
  destruct (@handle_group_request_has_inbound Sample.runtime Sample.cfg w
              others msg Sample.ready (py "@bot") (py "hi"))
    as (lines & reply & Hin & Hlast & _); try reflexivity.
  - vm_compute. discriminate.
  - intros d Hd. vm_compute in Hd. discriminate.
  - intros s. unfold others, buffer, push. simpl.
    by rewrite lookup_insert_ne.
  - intros s. exists []. unfold others. simpl. by rewrite app_nil_r.
  - exists lines, reply. split; [exact Hin | exact Hlast].
Defined.

(** When another message of the same chat is recorded during the typing
    call, it is that message's line that ends the history block. *)
Example interleaved_append_same_chat :
  let w := Sample.world (Ok (Sample.ok_response (Sample.completion (py "Sunny.")))) in
  let msg := Sample.text_message Sample.alice (py "@bot hi") in
  let others := fun s =>
    set_history (push 30 100 (false, py "> Bob: lol") (HISTORY s)) s in
  match new_events Sample.ready
          (@handle_group_interleaved Sample.runtime Sample.cfg w others msg
             Sample.ready).1 with
  | [_; EPost req; _] => content <$> last (messages (json_payload req))
  | _ => None
  end
  = Some (py "Chat history:" ++ [NL] ++ py "> Alice (@alice): @bot hi"
          ++ [NL] ++ py "> Bob: lol"
          ++ [NL; NL] ++ py "User prompt:" ++ [NL] ++ py "hi").
Proof. vm_compute. reflexivity. Qed.
